(** * Heroes API (docs_src/nosql_databases/tutorial001.py)

    A shallow embedding of the FastAPI tutorial application that exposes
    create / list / read / update / delete over a single "heroes"
    collection, together with the in-memory collection that the test-suite
    (tests/test_tutorial/test_nosql_databases/test_tutorial001.py) puts in
    place of the MongoDB driver.

    Layout:
    - [Bson]: the identifier type of the store (bson.ObjectId);
    - [PyDict], [PySlice]: an insertion-ordered Python dict keyed by
      identifiers, and list slices;
    - values, documents, the field schemas and the two pydantic models
      [Hero] and [HeroUpdate];
    - [Collection]: the mock collection of the test fixture, as actions
      of a small state-and-exception monad;
    - the five route handlers and the routes FastAPI puts around them;
    - facts about the model, the test-suite run on it, and the properties
      of the specification (C1 to C10).

    Library behaviour that is not part of the repository is recorded where
    it is used: bson.ObjectId and bytes.fromhex in [Bson], the pydantic
    field validators next to the models, their lax integer coercions as an
    interface ([Lax]) that the development is parametric in. *)

From Stdlib Require Import ZArith NArith Ascii String List Lia.
From Stdlib Require Import Strings.Byte.
From stdpp Require Import base option list strings gmap.

Local Open Scope string_scope.
Local Open Scope list_scope.

(** ** The store's identifier type *)

Module Bson.

(** [_PyLong_DigitValue]: the value of a character as a digit, 37 for a
    character that is no digit in any base up to 36. *)
Definition digit_value (c : ascii) : N :=
  let n := N_of_ascii c in
  if ((48 <=? n) && (n <=? 57))%N then (n - 48)%N
  else if ((97 <=? n) && (n <=? 122))%N then (n - 87)%N
  else if ((65 <=? n) && (n <=? 90))%N then (n - 55)%N
  else 37%N.

(** [Py_ISSPACE]: space, \t, \n, \v, \f, \r. *)
Definition is_space (c : ascii) : bool :=
  let n := N_of_ascii c in
  ((n =? 32) || ((9 <=? n) && (n <=? 13)))%N.

(** [bytes.fromhex]: pairs of hexadecimal digits, ASCII white space
    allowed between (not inside) the pairs; [None] stands for the
    [ValueError] it raises. *)
Fixpoint fromhex (s : string) : option (list byte) :=
  match s with
  | EmptyString => Some []
  | String c s' =>
      if is_space c then fromhex s'
      else
        match s' with
        | EmptyString => None
        | String d s'' =>
            let top := digit_value c in
            let bot := digit_value d in
            if ((top <? 16) && (bot <? 16))%N then
              match Byte.of_N (16 * top + bot), fromhex s'' with
              | Some b, Some bs => Some (b :: bs)
              | _, _ => None
              end
            else None
        end
  end.

Definition hex_digit (n : N) : ascii :=
  if (n <? 10)%N then ascii_of_N (48 + n) else ascii_of_N (87 + n).

(** [binascii.hexlify(..).decode()]: two lower-case digits per byte. *)
Fixpoint hexlify (bs : list byte) : string :=
  match bs with
  | [] => EmptyString
  | b :: bs' =>
      String (hex_digit (Byte.to_N b / 16))
        (String (hex_digit (Byte.to_N b mod 16)) (hexlify bs'))
  end.

(** An [ObjectId] is its binary value [oid.binary]. *)
Definition ObjectId : Type := list byte.

#[global] Instance byte_eq_dec : EqDecision byte := Byte.byte_eq_dec.

(** [ObjectId(oid)] for a [str] argument: the string must have 24
    characters and be accepted by [bytes.fromhex]; otherwise [InvalidId]
    is raised ([None]). *)
Definition ObjectId_of_str (oid : string) : option ObjectId :=
  if Nat.eqb (String.length oid) 24 then fromhex oid else None.

(** [str(oid)]. *)
Definition ObjectId_str (oid : ObjectId) : string := hexlify oid.

(** [ObjectId()] generates twelve bytes (timestamp, random value,
    counter). Which twelve bytes is not determined by the program: the
    generated identifier is an input of the operations that create one,
    and [generated] is what is known about it. *)
Definition generated (oid : ObjectId) : Prop := length oid = 12%nat.

End Bson.

(** ** Python dicts keyed by identifiers

    The fixture keeps the collection in a plain dict [documents]. A Python
    dict iterates in insertion order, and [find] iterates over
    [documents.values()], so the order is part of the model: a list of
    entries with at most one entry per key. *)

Module PyDict.
Section Dict.
Context {K V : Type} `{EqDecision K}.

Definition dict : Type := list (K * V).

(** [d.get(k)] *)
Fixpoint get (k : K) (d : dict) : option V :=
  match d with
  | [] => None
  | (k', v) :: d' => if decide (k = k') then Some v else get k d'
  end.

(** [k in d] *)
Definition contains (k : K) (d : dict) : bool :=
  match get k d with Some _ => true | None => false end.

(** [d[k] = v]: an existing key keeps its position, a new key goes to
    the end. *)
Fixpoint set (k : K) (v : V) (d : dict) : dict :=
  match d with
  | [] => [(k, v)]
  | (k', v') :: d' =>
      if decide (k = k') then (k, v) :: d' else (k', v') :: set k v d'
  end.

(** [del d[k]], for a key that is present: its entry goes, the other
    entries keep their order. *)
Fixpoint del (k : K) (d : dict) : dict :=
  match d with
  | [] => []
  | (k', v') :: d' =>
      if decide (k = k') then del k d' else (k', v') :: del k d'
  end.

(** [d.values()] *)
Definition values (d : dict) : list V := map snd d.

Definition keys (d : dict) : list K := map fst d.

(** The dicts Python can build: no key occurs twice. *)
Definition wf (d : dict) : Prop := NoDup (keys d).
End Dict.
Arguments dict : clear implicits.
End PyDict.

(** ** Python sequences: slices with one bound *)

Module PySlice.
Section Slice.
Context {A : Type}.

(** The index a slice bound denotes in a sequence of length [len]:
    a negative bound counts from the end, and the result is clipped
    to [0 .. len]. *)
Definition clip (len : nat) (i : Z) : nat :=
  if (i <? 0)%Z then Z.to_nat (Z.max (Z.of_nat len + i) 0)
  else Nat.min (Z.to_nat i) len.

(** [l[i:]] *)
Definition from (i : Z) (l : list A) : list A := drop (clip (length l) i) l.

(** [l[:j]] *)
Definition upto (j : Z) (l : list A) : list A := take (clip (length l) j) l.
End Slice.
End PySlice.

(** ** Values and documents *)

Import Bson.

(** The Python values that occur in request bodies (parsed JSON) and in
    stored documents. JSON numbers with a fraction or an exponent, which
    Python reads as floats, are not represented. *)
#[local] Set Warnings "-register-all".
Inductive value : Type :=
| VNone
| VBool (b : bool)
| VInt (z : Z)
| VStr (s : string)
| VOid (oid : ObjectId)
| VList (l : list value)
| VDict (d : list (string * value)).

(** A document, a dumped model, keyword arguments and a JSON object are all
    dicts with string keys. *)
Abbreviation document := (gmap string value).

(** ** pydantic validation *)

(** The outcome of validating one input: the validated value, a list of
    line errors (which becomes a [ValidationError]), or an exception of
    another kind that a validator function raised and pydantic lets
    through. The only such exception here is bson's [InvalidId]. *)
Inductive validated (A : Type) : Type :=
| Valid (a : A)
| LineErrors
| InternalErr.
Arguments Valid {A} a.
Arguments LineErrors {A}.
Arguments InternalErr {A}.

(** Lax mode converts some inputs that are not [int]s: bools and numeric
    strings. pydantic decides which; the development holds for every
    choice. *)
Class Lax : Type := {
  int_of_bool : bool -> option Z;
  int_of_str : string -> option Z
}.

Module Schema.
Section Schemas.
Context `{Lax}.

Definition of_option {A} (o : option A) : validated A :=
  match o with Some a => Valid a | None => LineErrors end.

(** [core_schema.str_schema()] *)
Definition str_schema (v : value) : validated string :=
  match v with VStr s => Valid s | _ => LineErrors end.

(** [core_schema.int_schema()], lax *)
Definition int_schema (v : value) : validated Z :=
  match v with
  | VInt z => Valid z
  | VBool b => of_option (int_of_bool b)
  | VStr s => of_option (int_of_str s)
  | _ => LineErrors
  end.

(** [Optional[T]] *)
Definition nullable {A} (schema : value -> validated A) (v : value)
  : validated (option A) :=
  match v with
  | VNone => Valid None
  | _ => match schema v with
         | Valid a => Valid (Some a)
         | LineErrors => LineErrors
         | InternalErr => InternalErr
         end
  end.

(** [PyObjectId.__get_pydantic_core_schema__], the [python_schema]
    branch: a union of "is an [ObjectId]" and "is a [str], then
    [ObjectId(..)]". A union member that fails with line errors lets
    the next member try; [InvalidId] is no [ValueError], so it leaves
    the union as it is. *)
Definition PyObjectId (v : value) : validated ObjectId :=
  match v with
  | VOid oid => Valid oid
  | VStr s =>
      match ObjectId_of_str s with
      | Some oid => Valid oid
      | None => InternalErr
      end
  | _ => LineErrors
  end.

(** A model field: looked up under its keys in turn, validated when
    found, its default (or "missing" line error) otherwise. *)
Fixpoint lookup_key (keys : list string) (data : document) : option value :=
  match keys with
  | [] => None
  | k :: keys' =>
      match data !! k with
      | Some v => Some v
      | None => lookup_key keys' data
      end
  end.

Definition field {A} (keys : list string) (schema : value -> validated A)
    (default : option A) (data : document) : validated A :=
  match lookup_key keys data with
  | Some v => schema v
  | None => of_option default
  end.
End Schemas.
End Schema.

(** ** The models *)

Module Model.
(** Fields are validated in declaration order. Line errors are collected
    and validation goes on with the next field; an exception of another
    kind ends it at once. *)
Definition both {A B} (x : validated A) (y : validated B) : validated (A * B) :=
  match x, y with
  | InternalErr, _ => InternalErr
  | _, InternalErr => InternalErr
  | Valid a, Valid b => Valid (a, b)
  | _, _ => LineErrors
  end.

Definition of_str (o : option string) : value :=
  match o with Some s => VStr s | None => VNone end.

Definition of_int (o : option Z) : value :=
  match o with Some z => VInt z | None => VNone end.
End Model.

(** [class Hero(BaseModel)], with [populate_by_name=True] and the alias
    [_id] for [id]. *)
Module Hero.
Import Schema Model.

Record t : Type := {
  id : option ObjectId;
  name : string;
  age : option Z;
  secret_name : string
}.

Section Validate.
Context `{Lax}.

(** The constructor [Hero] applied to the keyword arguments [data],
    and the validation of a request body as a [Hero]. Keys that name
    no field are ignored. *)
Definition validate (data : document) : validated t :=
  match
    both (field ["_id"; "id"] (nullable PyObjectId) (Some None) data)
      (both (field ["name"] str_schema None data)
         (both (field ["age"] (nullable int_schema) (Some None) data)
            (field ["secret_name"] str_schema None data)))
  with
  | Valid (i, (n, (a, s))) =>
      Valid {| id := i; name := n; age := a; secret_name := s |}
  | LineErrors => LineErrors
  | InternalErr => InternalErr
  end.
End Validate.

(** The hero with the same fields and the identifier [doc_id]. *)
Definition with_id (doc_id : ObjectId) (hero : t) : t :=
  {| id := Some doc_id; name := name hero; age := age hero;
     secret_name := secret_name hero |}.

(** [hero.model_dump(by_alias=True, exclude={"id"})] *)
Definition model_dump_exclude_id (hero : t) : document :=
  <["name" := VStr (name hero)]>
    (<["age" := of_int (age hero)]>
       (<["secret_name" := VStr (secret_name hero)]> ∅)).

(** The JSON object FastAPI sends for a [Hero] ([response_model=Hero]):
    keys by alias, the identifier through the [str] serializer of
    [PyObjectId]. *)
Definition jsonable (hero : t) : document :=
  <["_id" := of_str (ObjectId_str <$> id hero)]> (model_dump_exclude_id hero).
End Hero.

(** [class HeroUpdate(BaseModel)]: every field optional, and the instance
    remembers which fields the input gave ([model_fields_set]). *)
Module HeroUpdate.
Import Schema Model.

Record t : Type := {
  name : option string;
  age : option Z;
  secret_name : option string;
  model_fields_set : gset string
}.

Definition fields : list string := ["name"; "age"; "secret_name"].

Section Validate.
Context `{Lax}.

Definition validate (data : document) : validated t :=
  match
    both (field ["name"] (nullable str_schema) (Some None) data)
      (both (field ["age"] (nullable int_schema) (Some None) data)
         (field ["secret_name"] (nullable str_schema) (Some None) data))
  with
  | Valid (n, (a, s)) =>
      Valid {| name := n; age := a; secret_name := s;
               model_fields_set :=
                 list_to_set (filter (λ f, is_Some (data !! f)) fields) |}
  | LineErrors => LineErrors
  | InternalErr => InternalErr
  end.
End Validate.

Definition dump_field (hero : t) (f : string) (v : value) (d : document)
  : document :=
  if decide (f ∈ model_fields_set hero) then <[f := v]> d else d.

(** [hero.model_dump(exclude_unset=True)] *)
Definition model_dump_exclude_unset (hero : t) : document :=
  dump_field hero "name" (of_str (name hero))
    (dump_field hero "age" (of_int (age hero))
       (dump_field hero "secret_name" (of_str (secret_name hero)) ∅)).
End HeroUpdate.

(** ** Handlers as computations over the collection *)

(** What a handler can raise. *)
Inductive exn : Type :=
| HTTPException (status_code : Z) (detail : string)
| ValidationError
| InvalidId.

(** The calls a handler makes on the collection, in the order it makes
    them. The log is no part of the program: it is what "the handler did
    (not) touch the store" is stated with. *)
Inductive call : Type :=
| insert_one_call (doc : document)
| find_call
| find_one_call (oid : ObjectId)
| update_one_call (oid : ObjectId) (changes : document)
| delete_one_call (oid : ObjectId).

(** The state the fixture closes over: the dict [documents]. *)
Record store : Type := {
  documents : PyDict.dict ObjectId document;
  calls : list call
}.

(** A computation returns or raises, and leaves a store. *)
Definition M (A : Type) : Type := store -> (exn + A) * store.

Definition ret {A} (a : A) : M A := λ st, (inr a, st).

Definition raise {A} (e : exn) : M A := λ st, (inl e, st).

Definition bind {A B} (m : M A) (k : A -> M B) : M B :=
  λ st, match m st with
        | (inr a, st') => k a st'
        | (inl e, st') => (inl e, st')
        end.

Notation "x <- m ;; k" := (bind m (λ x, k))
  (at level 100, m at next level, right associativity,
   format "'[v' x  <-  m  ;;  '/' k ']'").

Definition logged (c : call) (st : store) : store :=
  {| documents := documents st; calls := calls st ++ [c] |}.

Definition with_documents (d : PyDict.dict ObjectId document) (st : store)
  : store :=
  {| documents := d; calls := calls st |}.

Definition called (c : call) : M unit := λ st, (inr tt, logged c st).

Definition get_documents : M (PyDict.dict ObjectId document) :=
  λ st, (inr (documents st), st).

Definition put_documents (d : PyDict.dict ObjectId document) : M unit :=
  λ st, (inr tt, with_documents d st).

(** The mock collection of the test fixture. A query is always
    [{"_id": object_id}] and is passed as that identifier. *)
Module Collection.

(** [mock_insert_one(doc)]; [doc_id] is the identifier [ObjectId()]
    generates. Returns [result.inserted_id]. *)
Definition insert_one (doc_id : ObjectId) (doc : document) : M ObjectId :=
  _ <- called (insert_one_call doc) ;;
  docs <- get_documents ;;
  _ <- put_documents (PyDict.set doc_id (<["_id" := VOid doc_id]> doc) docs) ;;
  ret doc_id.

(** [mock_find_one(query)] *)
Definition find_one (doc_id : ObjectId) : M (option document) :=
  _ <- called (find_one_call doc_id) ;;
  docs <- get_documents ;;
  ret (PyDict.get doc_id docs).

(** [mock_update_one(query, update)], with [changes] the dict under
    ["$set"]. [dict.update] lets the new entries win. Returns
    [result.matched_count]. *)
Definition update_one (doc_id : ObjectId) (changes : document) : M Z :=
  _ <- called (update_one_call doc_id changes) ;;
  docs <- get_documents ;;
  match PyDict.get doc_id docs with
  | Some doc =>
      _ <- put_documents (PyDict.set doc_id (changes ∪ doc) docs) ;;
      ret 1%Z
  | None => ret 0%Z
  end.

(** [mock_delete_one(query)]. Returns [result.deleted_count]. *)
Definition delete_one (doc_id : ObjectId) : M Z :=
  _ <- called (delete_one_call doc_id) ;;
  docs <- get_documents ;;
  if PyDict.contains doc_id docs then
    _ <- put_documents (PyDict.del doc_id docs) ;;
    ret 1%Z
  else ret 0%Z.

(** [class MockCursor] *)
Record MockCursor : Type := {
  docs : list document;
  skip_count : Z;
  limit_count : option Z
}.

Definition skip (count : Z) (c : MockCursor) : MockCursor :=
  {| docs := docs c; skip_count := count; limit_count := limit_count c |}.

Definition limit (count : Z) (c : MockCursor) : MockCursor :=
  {| docs := docs c; skip_count := skip_count c; limit_count := Some count |}.

(** What [async for document in cursor] goes through: [__anext__]
    computes the same slice at every step and hands out its elements one
    after the other. *)
Definition iterate (c : MockCursor) : list document :=
  let sliced := PySlice.from (skip_count c) (docs c) in
  match limit_count c with
  | Some count => PySlice.upto count sliced
  | None => sliced
  end.

(** [mock_find()] *)
Definition find : M MockCursor :=
  _ <- called find_call ;;
  documents <- get_documents ;;
  ret {| docs := PyDict.values documents; skip_count := 0; limit_count := None |}.
End Collection.

(** ** The route handlers *)

Section Handlers.
Context `{Lax}.

(** [Hero] applied to keyword arguments inside a handler: a validation
    failure is an exception of the handler. *)
Definition Hero_init (data : document) : M Hero.t :=
  match Hero.validate data with
  | Valid hero => ret hero
  | LineErrors => raise ValidationError
  | InternalErr => raise InvalidId
  end.

(** [try: object_id = ObjectId(hero_id)] / [except Exception: raise
    HTTPException(status_code=400, ...)] *)
Definition parse_hero_id (hero_id : string) : M ObjectId :=
  match ObjectId_of_str hero_id with
  | Some object_id => ret object_id
  | None => raise (HTTPException 400 "Invalid hero ID format")
  end.

Definition create_hero (doc_id : ObjectId) (hero : Hero.t) : M Hero.t :=
  let hero_dict := Hero.model_dump_exclude_id hero in
  inserted_id <- Collection.insert_one doc_id hero_dict ;;
  let hero_dict := <["_id" := VOid inserted_id]> hero_dict in
  Hero_init hero_dict.

(** The loop of [read_heroes]: [heroes.append(Hero(..))] for each
    document, up to the first one that fails. *)
Fixpoint append_heroes (cursor : list document) (heroes : list Hero.t)
  : M (list Hero.t) :=
  match cursor with
  | [] => ret heroes
  | document :: cursor' =>
      hero <- Hero_init document ;;
      append_heroes cursor' (heroes ++ [hero])
  end.

Definition read_heroes (skip limit : Z) : M (list Hero.t) :=
  cursor <- Collection.find ;;
  let cursor := Collection.limit limit (Collection.skip skip cursor) in
  append_heroes (Collection.iterate cursor) [].

Definition read_hero (hero_id : string) : M Hero.t :=
  object_id <- parse_hero_id hero_id ;;
  hero <- Collection.find_one object_id ;;
  match hero with
  | None => raise (HTTPException 404 "Hero not found")
  | Some hero => Hero_init hero
  end.

Definition update_hero (hero_id : string) (hero : HeroUpdate.t) : M Hero.t :=
  object_id <- parse_hero_id hero_id ;;
  let hero_dict := HeroUpdate.model_dump_exclude_unset hero in
  _ <- (if (1 <=? size hero_dict)%nat then
          matched_count <- Collection.update_one object_id hero_dict ;;
          if (matched_count =? 0)%Z
          then raise (HTTPException 404 "Hero not found")
          else ret tt
        else ret tt) ;;
  updated_hero <- Collection.find_one object_id ;;
  match updated_hero with
  | None => raise (HTTPException 404 "Hero not found")
  | Some updated_hero => Hero_init updated_hero
  end.

Definition delete_hero (hero_id : string) : M document :=
  object_id <- parse_hero_id hero_id ;;
  deleted_count <- Collection.delete_one object_id ;;
  if (deleted_count =? 0)%Z
  then raise (HTTPException 404 "Hero not found")
  else ret {[ "ok" := VBool true ]}.
End Handlers.

(** ** Requests and responses *)

(** The JSON a response carries: one object, or an array of objects. *)
Inductive json : Type :=
| JObject (o : document)
| JArray (l : list document).

Inductive Response : Type :=
| JSONResponse (status : Z) (content : json)
(** a request that fails validation: 422 and the list of errors *)
| UnprocessableEntity
(** an exception that no handler catches: 500 *)
| InternalServerError.

Definition status_code (r : Response) : Z :=
  match r with
  | JSONResponse status _ => status
  | UnprocessableEntity => 422
  | InternalServerError => 500
  end.

Section Routes.
Context `{Lax}.

(** What FastAPI answers when the handler returns or raises. *)
Definition respond {A} (serialize : A -> json) (handler : M A)
  : store -> Response * store :=
  λ st, match handler st with
        | (inr a, st') => (JSONResponse 200 (serialize a), st')
        | (inl (HTTPException status detail), st') =>
            (JSONResponse status (JObject {[ "detail" := VStr detail ]}), st')
        | (inl _, st') => (InternalServerError, st')
        end.

(** Parameters are validated before the handler is called. *)
Definition with_param {A} (param : validated A)
    (route : A -> store -> Response * store) : store -> Response * store :=
  match param with
  | Valid a => route a
  | LineErrors => λ st, (UnprocessableEntity, st)
  | InternalErr => λ st, (InternalServerError, st)
  end.

(** [skip: int = 0] *)
Definition skip_param (raw : option string) : validated Z :=
  match raw with
  | None => Valid 0%Z
  | Some s => Schema.int_schema (VStr s)
  end.

(** [limit: int = Query(default=100, le=100)] *)
Definition limit_param (raw : option string) : validated Z :=
  match raw with
  | None => Valid 100%Z
  | Some s =>
      match Schema.int_schema (VStr s) with
      | Valid limit => if (limit <=? 100)%Z then Valid limit else LineErrors
      | other => other
      end
  end.

(** [POST /heroes/] *)
Definition POST_heroes (doc_id : ObjectId) (body : document)
  : store -> Response * store :=
  with_param (Hero.validate body) (λ hero,
    respond (λ h, JObject (Hero.jsonable h)) (create_hero doc_id hero)).

(** [GET /heroes/?skip=&limit=] *)
Definition GET_heroes (skip limit : option string)
  : store -> Response * store :=
  with_param (skip_param skip) (λ skip,
    with_param (limit_param limit) (λ limit,
      respond (λ hs, JArray (Hero.jsonable <$> hs)) (read_heroes skip limit))).

(** [GET /heroes/{hero_id}] *)
Definition GET_hero (hero_id : string) : store -> Response * store :=
  respond (λ h, JObject (Hero.jsonable h)) (read_hero hero_id).

(** [PATCH /heroes/{hero_id}] *)
Definition PATCH_hero (hero_id : string) (body : document)
  : store -> Response * store :=
  with_param (HeroUpdate.validate body) (λ hero,
    respond (λ h, JObject (Hero.jsonable h)) (update_hero hero_id hero)).

(** [DELETE /heroes/{hero_id}] *)
Definition DELETE_hero (hero_id : string) : store -> Response * store :=
  respond JObject (delete_hero hero_id).
End Routes.

(** An instance to run examples with: bools as 0 and 1, strings of
    decimal digits (after an optional minus sign) as the number they write,
    nothing else converted. *)
Module Decimal.
Definition digit (c : ascii) : option Z :=
  let n := N_of_ascii c in
  if ((48 <=? n) && (n <=? 57))%N then Some (Z.of_N (n - 48)) else None.

Fixpoint digits (s : string) (acc : Z) : option Z :=
  match s with
  | EmptyString => Some acc
  | String c s' =>
      match digit c with
      | Some d => digits s' (10 * acc + d)
      | None => None
      end
  end.

Definition unsigned (s : string) : option Z :=
  match s with
  | EmptyString => None
  | _ => digits s 0
  end.

Definition parse (s : string) : option Z :=
  match s with
  | String "-" s' => Z.opp <$> unsigned s'
  | _ => unsigned s
  end.

Definition lax : Lax :=
  {| int_of_bool := λ b, Some (Z.b2z b); int_of_str := parse |}.
End Decimal.

Definition empty_store : store := {| documents := []; calls := [] |}.

(** ** The application as a whole *)

(** A request, with what the run supplies besides: for a create, the
    identifier [ObjectId()] generates when the document is inserted. *)
Inductive request : Type :=
| POST_heroes_request (doc_id : ObjectId) (body : document)
| GET_heroes_request (skip limit : option string)
| GET_hero_request (hero_id : string)
| PATCH_hero_request (hero_id : string) (body : document)
| DELETE_hero_request (hero_id : string).

Section Application.
Context `{Lax}.

Definition serve (r : request) : store -> Response * store :=
  match r with
  | POST_heroes_request doc_id body => POST_heroes doc_id body
  | GET_heroes_request skip limit => GET_heroes skip limit
  | GET_hero_request hero_id => GET_hero hero_id
  | PATCH_hero_request hero_id body => PATCH_hero hero_id body
  | DELETE_hero_request hero_id => DELETE_hero hero_id
  end.

(** The store after a sequence of requests. *)
Fixpoint serve_all (rs : list request) (st : store) : store :=
  match rs with
  | [] => st
  | r :: rs' => serve_all rs' (snd (serve r st))
  end.
End Application.

(** Every document is stored under the identifier it holds in [_id]. *)
Definition keyed (d : PyDict.dict ObjectId document) : Prop :=
  Forall (λ entry, snd entry !! "_id" = Some (VOid (fst entry))) d.

(** The keys of a stored hero. *)
Definition hero_keys : gset string :=
  {[ "_id"; "name"; "age"; "secret_name" ]}.

(** Every document has the keys of a stored hero and no other. *)
Definition shaped (d : PyDict.dict ObjectId document) : Prop :=
  Forall (λ data, dom data = hero_keys) (PyDict.values d).

(** What holds of the documents of every store the application builds. *)
Definition consistent (d : PyDict.dict ObjectId document) : Prop :=
  PyDict.wf d /\ keyed d /\ shaped d.

(** A cursor over [docs] as [read_heroes] sets it up. *)
Definition page (skip limit : Z) (docs : list document) : list document :=
  Collection.iterate
    (Collection.limit limit
       (Collection.skip skip
          {| Collection.docs := docs; Collection.skip_count := 0;
             Collection.limit_count := None |})).

(** ** Vocabulary of the properties *)

(** The two errors the handlers raise themselves, and the response FastAPI
    makes of an [HTTPException]. *)
Definition not_found : exn := HTTPException 404 "Hero not found".
Definition bad_id : exn := HTTPException 400 "Invalid hero ID format".

Definition detail_response (status : Z) (detail : string) : Response :=
  JSONResponse status (JObject {[ "detail" := VStr detail ]}).

Section Vocabulary.
Context `{Lax}.

(** What [Hero_init] returns or raises. *)
Definition init_result (data : document) : exn + Hero.t :=
  match Hero.validate data with
  | Valid hero => inr hero
  | LineErrors => inl ValidationError
  | InternalErr => inl InvalidId
  end.

(** The part that [read_hero] and [update_hero] share: fetch, then build
    the hero. *)
Definition fetched (object_id : ObjectId) (st : store) : exn + Hero.t :=
  match PyDict.get object_id (documents st) with
  | None => inl not_found
  | Some data => init_result data
  end.


End Vocabulary.

Section Query.
Context `{Lax}.

End Query.

(** The identifier a request body carries, under the alias or the name. *)
Definition supplied_id (body : document) : option value :=
  Schema.lookup_key ["_id"; "id"] body.

(** The bodies whose identifier passes validation: none, null, or a string
    that [ObjectId] accepts. *)
Definition id_accepted (body : document) : Prop :=
  supplied_id body = None \/
  supplied_id body = Some VNone \/
  exists s oid, supplied_id body = Some (VStr s) /\ ObjectId_of_str s = Some oid.

(** The bodies whose identifier is a string that [ObjectId] refuses. *)
Definition id_malformed (body : document) : Prop :=
  exists s, supplied_id body = Some (VStr s) /\ ObjectId_of_str s = None.

(** A stored document with strings for both names. *)
Definition named (data : document) : Prop :=
  exists n s, data !! "name" = Some (VStr n) /\
              data !! "secret_name" = Some (VStr s).

Definition all_named (st : store) : Prop :=
  Forall named (PyDict.values (documents st)).

(** ** Data of the test-suite, for running the routes *)

Module Example.
#[local] Existing Instance Decimal.lax.

Definition doc_id : ObjectId :=
  [x65; xf0; xc0; xff; xee; x01; x23; x45; x67; x89; xab; xcd]%byte.

Definition hero_id : string := "65f0c0ffee0123456789abcd".

(** A well-formed identifier that names nothing. *)
Definition fake_id : string := "000000000000000000000000".

Definition deadpond : document :=
  <["name" := VStr "Deadpond"]>
    (<["secret_name" := VStr "Dive Wilson"]> (<["age" := VInt 30]> ∅)).

Definition deadpond_hero : Hero.t :=
  {| Hero.id := Some doc_id; Hero.name := "Deadpond"; Hero.age := Some 30%Z;
     Hero.secret_name := "Dive Wilson" |}.

(** The store after [POST /heroes/] of Deadpond into an empty one. *)
Definition created : store := snd (POST_heroes doc_id deadpond empty_store).
Definition spider_id : ObjectId :=
  [x65; xf0; xc0; xff; xee; x01; x23; x45; x67; x89; xab; xce]%byte.

Definition spider_boy : document :=
  <["name" := VStr "Spider-Boy"]>
    (<["secret_name" := VStr "Pedro Parqueador"]> {[ "age" := VInt 25 ]}).

(** The store after [PATCH /heroes/{id}] has set Deadpond's name to
    null. *)
Definition nameless : store :=
  snd (PATCH_hero hero_id {[ "name" := VNone ]} created).

(** Deadpond, then Spider-Boy. *)
Definition two_heroes : store :=
  snd (POST_heroes spider_id spider_boy created).
End Example.

(** ** The loop of [read_heroes], without the store *)

Section Collect.
Context `{Lax}.

(** The heroes of a cursor's documents, or what [Hero_init] raises for the
    first document that is no hero. *)
Fixpoint heroes_of (cursor : list document) : exn + list Hero.t :=
  match cursor with
  | [] => inr []
  | data :: cursor' =>
      match init_result data with
      | inl e => inl e
      | inr hero =>
          match heroes_of cursor' with
          | inl e => inl e
          | inr heroes => inr (hero :: heroes)
          end
      end
  end.
End Collect.

(** * Facts about the model *)

(** ** Identifiers *)

Lemma hex_digit_value (n : N) :
  (n < 16)%N -> digit_value (hex_digit n) = n.
Proof.
  intros Hn.
  assert (Hcases : In n (map N.of_nat (seq 0 16))).
  { apply in_map_iff. exists (N.to_nat n). split; [lia|].
    apply in_seq. lia. }
  simpl in Hcases.
  repeat (destruct Hcases as [<- | Hcases]; [reflexivity|]).
  destruct Hcases.
Qed.

Lemma hex_digit_not_space (n : N) :
  (n < 16)%N -> is_space (hex_digit n) = false.
Proof.
  intros Hn.
  assert (Hcases : In n (map N.of_nat (seq 0 16))).
  { apply in_map_iff. exists (N.to_nat n). split; [lia|].
    apply in_seq. lia. }
  simpl in Hcases.
  repeat (destruct Hcases as [<- | Hcases]; [reflexivity|]).
  destruct Hcases.
Qed.

Lemma fromhex_hexlify (bs : list byte) : fromhex (hexlify bs) = Some bs.
Proof.
  induction bs as [|b bs IH]; [reflexivity|].
  pose proof (Byte.to_N_bounded b) as Hb.
  assert (Hhi : (Byte.to_N b / 16 < 16)%N).
  { apply N.Div0.div_lt_upper_bound. lia. }
  assert (Hlo : (Byte.to_N b mod 16 < 16)%N) by (apply N.mod_lt; lia).
  cbn [hexlify fromhex].
  rewrite (hex_digit_not_space _ Hhi).
  rewrite (hex_digit_value _ Hhi), (hex_digit_value _ Hlo).
  apply N.ltb_lt in Hhi, Hlo. rewrite Hhi, Hlo. cbn [andb].
  rewrite <- N.div_mod by lia.
  rewrite Byte.of_to_N, IH. reflexivity.
Qed.

Lemma length_hexlify (bs : list byte) :
  String.length (hexlify bs) = (2 * length bs)%nat.
Proof. induction bs as [|b bs IH]; cbn [hexlify String.length length]; lia. Qed.

(** Parsing the string form of a generated identifier gives it back. *)
Lemma ObjectId_of_str_str (oid : ObjectId) :
  generated oid -> ObjectId_of_str (ObjectId_str oid) = Some oid.
Proof.
  unfold generated, ObjectId_of_str, ObjectId_str. intros Hlen.
  rewrite length_hexlify, Hlen. cbn [Nat.mul Nat.add Nat.eqb].
  apply fromhex_hexlify.
Qed.

Lemma ObjectId_str_length (oid : ObjectId) :
  generated oid -> String.length (ObjectId_str oid) = 24%nat.
Proof. unfold generated, ObjectId_str. rewrite length_hexlify. lia. Qed.

(** ** Dicts *)

Section DictFacts.
Context {K V : Type} `{EqDecision K}.
Implicit Types (k : K) (v : V) (d : PyDict.dict K V).

Lemma get_set_eq k v d : PyDict.get k (PyDict.set k v d) = Some v.
Proof.
  induction d as [|[k' v'] d IH]; cbn.
  - by rewrite decide_True.
  - destruct (decide (k = k')) as [->|Hne]; cbn.
    + by rewrite decide_True.
    + by rewrite decide_False.
Qed.

Lemma get_set_ne k k' v d :
  k ≠ k' -> PyDict.get k' (PyDict.set k v d) = PyDict.get k' d.
Proof.
  intros Hne. induction d as [|[k0 v0] d IH]; cbn.
  - by rewrite decide_False.
  - destruct (decide (k = k0)) as [->|Hk]; cbn.
    + by rewrite !decide_False.
    + destruct (decide (k' = k0)); [done | apply IH].
Qed.

Lemma get_del_eq k d : PyDict.get k (PyDict.del k d) = None.
Proof.
  induction d as [|[k' v'] d IH]; cbn; [done|].
  destruct (decide (k = k')) as [->|Hne]; cbn; [done|].
  by rewrite decide_False.
Qed.

Lemma get_del_ne k k' d :
  k ≠ k' -> PyDict.get k' (PyDict.del k d) = PyDict.get k' d.
Proof.
  intros Hne. induction d as [|[k0 v0] d IH]; cbn; [done|].
  destruct (decide (k = k0)) as [->|Hk]; cbn.
  - by rewrite decide_False.
  - destruct (decide (k' = k0)); [done | apply IH].
Qed.

Lemma contains_get k d :
  PyDict.contains k d = true <-> is_Some (PyDict.get k d).
Proof.
  unfold PyDict.contains. destruct (PyDict.get k d); split;
    (done || eauto || by intros [? ?]).
Qed.

Lemma get_values k d v : PyDict.get k d = Some v -> In v (PyDict.values d).
Proof.
  induction d as [|[k' v'] d IH]; cbn; [done|].
  destruct (decide (k = k')); [intros [= ->]; by left | right; auto].
Qed.

(** Every value of [set k v d] is [v] or a value of [d]; every value of
    [del k d] is a value of [d]. *)
Lemma Forall_values_set (P : V -> Prop) k v d :
  P v -> Forall P (PyDict.values d) -> Forall P (PyDict.values (PyDict.set k v d)).
Proof.
  intros Hv. induction d as [|[k' v'] d IH]; cbn; intros Hd.
  - by constructor.
  - apply Forall_cons in Hd as [Hv' Hd].
    destruct (decide (k = k')); cbn; constructor; auto.
Qed.

Lemma Forall_values_del (P : V -> Prop) k d :
  Forall P (PyDict.values d) -> Forall P (PyDict.values (PyDict.del k d)).
Proof.
  induction d as [|[k' v'] d IH]; cbn; intros Hd; [done|].
  apply Forall_cons in Hd as [Hv' Hd].
  destruct (decide (k = k')); cbn; [|constructor]; auto.
Qed.
End DictFacts.

(** ** Validation *)

Lemma both_Valid {A B} (x : validated A) (y : validated B) a b :
  Model.both x y = Valid (a, b) <-> x = Valid a /\ y = Valid b.
Proof.
  destruct x, y; cbn; split; try (intros [? ?]); try discriminate; try congruence.
  intros [= -> ->]. done.
Qed.

Section ValidationFacts.
Context `{Lax}.

Lemma field_ext {A} keys (schema : value -> validated A) default
    (d1 d2 : document) :
  Schema.lookup_key keys d1 = Schema.lookup_key keys d2 ->
  Schema.field keys schema default d1 = Schema.field keys schema default d2.
Proof. unfold Schema.field. by intros ->. Qed.

Lemma lookup_key_ext keys (d1 d2 : document) :
  (forall k, In k keys -> d1 !! k = d2 !! k) ->
  Schema.lookup_key keys d1 = Schema.lookup_key keys d2.
Proof.
  induction keys as [|k keys IH]; intros Hk; cbn; [done|].
  rewrite (Hk k) by (by left).
  rewrite IH; [done|]. intros k' Hin. apply Hk. by right.
Qed.

(** What a valid [Hero] says about the data it was built from. *)
Lemma Hero_validate_Valid (data : document) (hero : Hero.t) :
  Hero.validate data = Valid hero <->
  Schema.field ["_id"; "id"] (Schema.nullable Schema.PyObjectId) (Some None) data
    = Valid (Hero.id hero) /\
  Schema.field ["name"] Schema.str_schema None data = Valid (Hero.name hero) /\
  Schema.field ["age"] (Schema.nullable Schema.int_schema) (Some None) data
    = Valid (Hero.age hero) /\
  Schema.field ["secret_name"] Schema.str_schema None data
    = Valid (Hero.secret_name hero).
Proof.
  unfold Hero.validate.
  destruct (Model.both _ _) as [[i [n [a s]]]| |] eqn:Hb.
  - apply both_Valid in Hb as [Hi Hb]. apply both_Valid in Hb as [Hn Hb].
    apply both_Valid in Hb as [Ha Hs]. rewrite Hi, Hn, Ha, Hs.
    destruct hero as [i' n' a' s']; cbn. split.
    + by intros [= -> -> -> ->].
    + by intros ([= ->] & [= ->] & [= ->] & [= ->]).
  - split; [done|]. intros (Hi & Hn & Ha & Hs).
    rewrite Hi, Hn, Ha, Hs in Hb. done.
  - split; [done|]. intros (Hi & Hn & Ha & Hs).
    rewrite Hi, Hn, Ha, Hs in Hb. done.
Qed.

(** Validation looks at five keys only. *)
Lemma Hero_validate_ext (d1 d2 : document) :
  (forall k, In k ["_id"; "id"; "name"; "age"; "secret_name"] ->
             d1 !! k = d2 !! k) ->
  Hero.validate d1 = Hero.validate d2.
Proof.
  intros Hk. unfold Hero.validate.
  rewrite (field_ext ["_id"; "id"] _ _ d1 d2), (field_ext ["name"] _ _ d1 d2),
    (field_ext ["age"] _ _ d1 d2), (field_ext ["secret_name"] _ _ d1 d2);
    [done|..]; apply lookup_key_ext; intros k Hin; apply Hk; cbn in *; tauto.
Qed.

(** A dumped hero with an identifier put under [_id] is a valid hero. *)
Lemma Hero_validate_dumped (doc_id : ObjectId) (hero : Hero.t) :
  Hero.validate (<["_id" := VOid doc_id]> (Hero.model_dump_exclude_id hero))
  = Valid (Hero.with_id doc_id hero).
Proof.
  apply Hero_validate_Valid. unfold Hero.model_dump_exclude_id, Schema.field.
  destruct hero as [i n a s].
  cbn [Hero.id Hero.name Hero.age Hero.secret_name Hero.with_id
       Schema.lookup_key].
  repeat split; simplify_map_eq; try done.
  by destruct a.
Qed.
End ValidationFacts.

(** ** What the handlers compute *)

Section HandlerFacts.
Context `{Lax}.

Lemma Hero_init_run data st : Hero_init data st = (init_result data, st).
Proof. unfold Hero_init, init_result. by destruct (Hero.validate data). Qed.

Lemma create_hero_run doc_id hero st :
  create_hero doc_id hero st =
  (inr (Hero.with_id doc_id hero),
   with_documents
     (PyDict.set doc_id
        (<["_id" := VOid doc_id]> (Hero.model_dump_exclude_id hero))
        (documents st))
     (logged (insert_one_call (Hero.model_dump_exclude_id hero)) st)).
Proof.
  unfold create_hero, Collection.insert_one, bind, called, get_documents,
    put_documents, ret. cbn.
  by rewrite Hero_init_run; unfold init_result; rewrite Hero_validate_dumped.
Qed.

Lemma read_hero_run hero_id st :
  read_hero hero_id st =
  match ObjectId_of_str hero_id with
  | None => (inl bad_id, st)
  | Some object_id =>
      (fetched object_id st, logged (find_one_call object_id) st)
  end.
Proof.
  unfold read_hero, parse_hero_id, bind, fetched.
  destruct (ObjectId_of_str hero_id) as [object_id|]; cbn; [|done].
  destruct (PyDict.get object_id (documents st)); cbn; [|done].
  by rewrite Hero_init_run.
Qed.

Lemma update_hero_run hero_id hero st :
  update_hero hero_id hero st =
  match ObjectId_of_str hero_id with
  | None => (inl bad_id, st)
  | Some object_id =>
      let changes := HeroUpdate.model_dump_exclude_unset hero in
      if (1 <=? size changes)%nat then
        let st1 := logged (update_one_call object_id changes) st in
        match PyDict.get object_id (documents st) with
        | None => (inl not_found, st1)
        | Some data =>
            let st2 :=
              with_documents
                (PyDict.set object_id (changes ∪ data) (documents st)) st1 in
            (fetched object_id st2, logged (find_one_call object_id) st2)
        end
      else (fetched object_id st, logged (find_one_call object_id) st)
  end.
Proof.
  unfold update_hero, parse_hero_id, bind, fetched.
  destruct (ObjectId_of_str hero_id) as [object_id|]; [|done].
  cbn -[Nat.leb].
  destruct (1 <=? size (HeroUpdate.model_dump_exclude_unset hero))%nat;
    cbn -[Nat.leb].
  - destruct (PyDict.get object_id (documents st)) as [data|] eqn:Hget;
      cbn; [|done].
    rewrite get_set_eq. by rewrite Hero_init_run.
  - destruct (PyDict.get object_id (documents st)); cbn; [|done].
    by rewrite Hero_init_run.
Qed.

Lemma delete_hero_run hero_id st :
  delete_hero hero_id st =
  match ObjectId_of_str hero_id with
  | None => (inl bad_id, st)
  | Some object_id =>
      let st1 := logged (delete_one_call object_id) st in
      match PyDict.get object_id (documents st) with
      | None => (inl not_found, st1)
      | Some _ =>
          (inr {[ "ok" := VBool true ]},
           with_documents (PyDict.del object_id (documents st)) st1)
      end
  end.
Proof.
  unfold delete_hero, parse_hero_id, bind, Collection.delete_one,
    PyDict.contains.
  destruct (ObjectId_of_str hero_id) as [object_id|]; cbn; [|done].
  by destruct (PyDict.get object_id (documents st)).
Qed.
End HandlerFacts.

(** ** Partial updates *)

Section UpdateFacts.
Context `{Lax}.

Lemma HeroUpdate_validate_Valid (data : document) (hero : HeroUpdate.t) :
  HeroUpdate.validate data = Valid hero ->
  Schema.field ["name"] (Schema.nullable Schema.str_schema) (Some None) data
    = Valid (HeroUpdate.name hero) /\
  Schema.field ["age"] (Schema.nullable Schema.int_schema) (Some None) data
    = Valid (HeroUpdate.age hero) /\
  Schema.field ["secret_name"] (Schema.nullable Schema.str_schema) (Some None) data
    = Valid (HeroUpdate.secret_name hero) /\
  forall f, f ∈ HeroUpdate.model_fields_set hero <->
            f ∈ HeroUpdate.fields /\ is_Some (data !! f).
Proof.
  unfold HeroUpdate.validate.
  destruct (Model.both _ _) as [[n [a s]]| |] eqn:Hb; [|done..].
  apply both_Valid in Hb as [Hn Hb]. apply both_Valid in Hb as [Ha Hs].
  intros [= <-].
  cbn [HeroUpdate.name HeroUpdate.age HeroUpdate.secret_name
       HeroUpdate.model_fields_set].
  split; [done|split; [done|split; [done|]]].
  intros f. rewrite elem_of_list_to_set, list_elem_of_filter. tauto.
Qed.

(** The dump has the set fields and nothing else. *)
Lemma dump_lookup (hero : HeroUpdate.t) (k : string) :
  HeroUpdate.model_dump_exclude_unset hero !! k =
  if decide (k ∈ HeroUpdate.model_fields_set hero) then
    if decide (k = "name") then Some (Model.of_str (HeroUpdate.name hero))
    else if decide (k = "age") then Some (Model.of_int (HeroUpdate.age hero))
    else if decide (k = "secret_name")
         then Some (Model.of_str (HeroUpdate.secret_name hero))
         else None
  else None.
Proof.
  unfold HeroUpdate.model_dump_exclude_unset, HeroUpdate.dump_field.
  destruct (decide (k = "name")) as [->|Hname].
  { repeat case_decide; by simplify_map_eq. }
  destruct (decide (k = "age")) as [->|Hage].
  { repeat case_decide; by simplify_map_eq. }
  destruct (decide (k = "secret_name")) as [->|Hsecret].
  { repeat case_decide; by simplify_map_eq. }
  repeat case_decide; by simplify_map_eq.
Qed.

(** A key the body does not have is not in the dump. *)
Lemma dump_lookup_absent (body : document) (hero : HeroUpdate.t) k :
  HeroUpdate.validate body = Valid hero ->
  body !! k = None ->
  HeroUpdate.model_dump_exclude_unset hero !! k = None.
Proof.
  intros (_ & _ & _ & Hset)%HeroUpdate_validate_Valid Hk.
  rewrite dump_lookup. case_decide as Hin; [|done].
  apply Hset in Hin as [_ [v Hv]]. congruence.
Qed.

(** A key that is not a field is not in the dump. *)
Lemma dump_lookup_other (body : document) (hero : HeroUpdate.t) k :
  HeroUpdate.validate body = Valid hero ->
  k ∉ HeroUpdate.fields ->
  HeroUpdate.model_dump_exclude_unset hero !! k = None.
Proof.
  intros (_ & _ & _ & Hset)%HeroUpdate_validate_Valid Hk.
  rewrite dump_lookup. case_decide as Hin; [|done].
  apply Hset in Hin as [? _]. done.
Qed.

Lemma field_found {A} k (schema : value -> validated A) default
    (data : document) v :
  data !! k = Some v -> Schema.field [k] schema default data = schema v.
Proof. unfold Schema.field; cbn. by intros ->. Qed.

(** A field the body has is in the dump, with the validated value. *)
Lemma dump_lookup_present (body : document) (hero : HeroUpdate.t) k v :
  HeroUpdate.validate body = Valid hero ->
  k ∈ HeroUpdate.fields ->
  body !! k = Some v ->
  exists v', HeroUpdate.model_dump_exclude_unset hero !! k = Some v' /\
    (k = "name" -> Schema.nullable Schema.str_schema v = Valid (HeroUpdate.name hero)
                   /\ v' = Model.of_str (HeroUpdate.name hero)) /\
    (k = "age" -> Schema.nullable Schema.int_schema v = Valid (HeroUpdate.age hero)
                  /\ v' = Model.of_int (HeroUpdate.age hero)) /\
    (k = "secret_name" ->
       Schema.nullable Schema.str_schema v = Valid (HeroUpdate.secret_name hero)
       /\ v' = Model.of_str (HeroUpdate.secret_name hero)).
Proof.
  intros (Hn & Ha & Hs & Hset)%HeroUpdate_validate_Valid Hk Hv.
  rewrite dump_lookup. rewrite decide_True by (apply Hset; eauto).
  unfold HeroUpdate.fields in Hk.
  apply elem_of_cons in Hk as [->|Hk]; [|apply elem_of_cons in Hk as [->|Hk]];
    [| |apply list_elem_of_singleton in Hk as ->].
  - rewrite (field_found _ _ _ _ _ Hv) in Hn.
    eexists; split; [done|]. repeat split; done.
  - rewrite (field_found _ _ _ _ _ Hv) in Ha.
    eexists; split; [done|]. repeat split; done.
  - rewrite (field_found _ _ _ _ _ Hv) in Hs.
    eexists; split; [done|]. repeat split; done.
Qed.

(** An explicit null is dumped as null. *)
Lemma dump_lookup_null (body : document) (hero : HeroUpdate.t) k :
  HeroUpdate.validate body = Valid hero ->
  k ∈ HeroUpdate.fields ->
  body !! k = Some VNone ->
  HeroUpdate.model_dump_exclude_unset hero !! k = Some VNone.
Proof.
  intros Hval Hk Hv.
  destruct (dump_lookup_present _ _ _ _ Hval Hk Hv) as (v' & -> & Hn & Ha & Hs).
  unfold HeroUpdate.fields in Hk. f_equal.
  apply elem_of_cons in Hk as [->|Hk]; [|apply elem_of_cons in Hk as [->|Hk]];
    [| |apply list_elem_of_singleton in Hk as ->].
  - destruct Hn as [[= <-] ->]; done.
  - destruct Ha as [[= <-] ->]; done.
  - destruct Hs as [[= <-] ->]; done.
Qed.

(** No field in the body: the dump is empty. *)
Lemma dump_empty (body : document) (hero : HeroUpdate.t) :
  HeroUpdate.validate body = Valid hero ->
  (forall f, f ∈ HeroUpdate.fields -> body !! f = None) ->
  HeroUpdate.model_dump_exclude_unset hero = ∅.
Proof.
  intros Hval Hnone. apply map_eq. intros k. rewrite lookup_empty.
  destruct (decide (k ∈ HeroUpdate.fields)) as [Hk|Hk].
  - eapply dump_lookup_absent; eauto.
  - eapply dump_lookup_other; eauto.
Qed.

(** Some field in the body: the dump is not empty. *)
Lemma dump_nonempty (body : document) (hero : HeroUpdate.t) f :
  HeroUpdate.validate body = Valid hero ->
  f ∈ HeroUpdate.fields -> is_Some (body !! f) ->
  (1 <=? size (HeroUpdate.model_dump_exclude_unset hero))%nat = true.
Proof.
  intros Hval Hf [v Hv].
  destruct (dump_lookup_present _ _ _ _ Hval Hf Hv) as (v' & Hv' & _).
  apply Nat.leb_le.
  destruct (size (HeroUpdate.model_dump_exclude_unset hero)) eqn:Hsize; [|lia].
  apply map_size_empty_iff in Hsize. rewrite Hsize in Hv'. done.
Qed.
End UpdateFacts.

(** ** Updating a record that is there *)

(** What [PATCH /heroes/{id}] does on a record that is there: the stored
    document becomes the changes laid over it, every other document stays,
    and the response is built from the new document. *)
Lemma PATCH_hero_found `{Lax} (hero_id : string) (object_id : ObjectId)
    (body : document) (hero : HeroUpdate.t) (data : document) (st : store) :
  ObjectId_of_str hero_id = Some object_id ->
  PyDict.get object_id (documents st) = Some data ->
  HeroUpdate.validate body = Valid hero ->
  let changes := HeroUpdate.model_dump_exclude_unset hero in
  let result := PATCH_hero hero_id body st in
  fst result =
    match Hero.validate (changes ∪ data) with
    | Valid updated => JSONResponse 200 (JObject (Hero.jsonable updated))
    | _ => InternalServerError
    end /\
  PyDict.get object_id (documents (snd result)) = Some (changes ∪ data) /\
  (forall k, k ≠ object_id ->
     PyDict.get k (documents (snd result)) = PyDict.get k (documents st)) /\
  calls (snd result) =
    (calls st ++
       (if (1 <=? size changes)%nat
        then [update_one_call object_id changes] else [])
       ++ [find_one_call object_id])%list.
Proof.
  intros Hid Hget Hval changes result. subst result.
  unfold PATCH_hero, with_param. rewrite Hval. unfold respond.
  rewrite update_hero_run, Hid. cbn zeta. fold changes.
  destruct (1 <=? size changes)%nat eqn:Hsize.
  - rewrite Hget. unfold fetched, with_documents, logged; cbn [documents calls].
    rewrite get_set_eq. unfold init_result.
    split; [by destruct (Hero.validate (changes ∪ data))|].
    split; [by destruct (Hero.validate (changes ∪ data)); cbn; rewrite get_set_eq|].
    split.
    + intros k Hk. destruct (Hero.validate (changes ∪ data)); cbn;
        by rewrite get_set_ne.
    + destruct (Hero.validate (changes ∪ data)); cbn; by rewrite <- app_assoc.
  - assert (changes = ∅) as ->.
    { apply map_size_empty_iff. apply Nat.leb_gt in Hsize. lia. }
    rewrite (left_id_L ∅ (∪)).
    unfold fetched, logged. rewrite Hget. unfold init_result.
    destruct (Hero.validate data); cbn; done.
Qed.

(** ** Listing *)

Section ListFacts.
Context `{Lax}.



Lemma read_heroes_run (skip limit : Z) st :
  read_heroes skip limit st =
  append_heroes
    (PySlice.upto limit (PySlice.from skip (PyDict.values (documents st))))
    [] (logged find_call st).
Proof. reflexivity. Qed.
End ListFacts.

(** ** Creating *)

Section CreateFacts.
Context `{Lax}.

Lemma id_field_accepted (body : document) :
  id_accepted body ->
  exists i, Schema.field ["_id"; "id"] (Schema.nullable Schema.PyObjectId)
              (Some None) body = Valid i.
Proof.
  unfold id_accepted, supplied_id, Schema.field.
  intros [-> | [-> | (s & oid & -> & Hoid)]]; cbn; eauto.
  rewrite Hoid. eauto.
Qed.

Lemma id_field_not_malformed (body : document) :
  ~ id_malformed body ->
  Schema.field ["_id"; "id"] (Schema.nullable Schema.PyObjectId)
    (Some None) body <> InternalErr.
Proof.
  unfold id_malformed, supplied_id, Schema.field. intros Hok.
  destruct (Schema.lookup_key _ body) as [[| | |s| | |]|]; cbn; try done.
  destruct (ObjectId_of_str s) eqn:Hs; [done|].
  exfalso. apply Hok. eauto.
Qed.

(** A body without one of the required fields is no hero. *)
Lemma Hero_validate_missing (body : document) (hero : Hero.t) :
  body !! "name" = None \/ body !! "secret_name" = None ->
  Hero.validate body <> Valid hero.
Proof.
  intros Hmiss (_ & Hn & _ & Hs)%Hero_validate_Valid.
  unfold Schema.field in Hn, Hs; cbn in Hn, Hs.
  destruct Hmiss as [Hm|Hm]; rewrite Hm in *; done.
Qed.

Lemma POST_heroes_run (doc_id : ObjectId) (body : document) (st : store) :
  POST_heroes doc_id body st =
  match Hero.validate body with
  | Valid hero =>
      (JSONResponse 200 (JObject (Hero.jsonable (Hero.with_id doc_id hero))),
       with_documents
         (PyDict.set doc_id
            (<["_id" := VOid doc_id]> (Hero.model_dump_exclude_id hero))
            (documents st))
         (logged (insert_one_call (Hero.model_dump_exclude_id hero)) st))
  | LineErrors => (UnprocessableEntity, st)
  | InternalErr => (InternalServerError, st)
  end.
Proof.
  unfold POST_heroes, with_param.
  destruct (Hero.validate body); [|done..].
  unfold respond. by rewrite create_hero_run.
Qed.

Lemma named_dumped (doc_id : ObjectId) (hero : Hero.t) :
  named (<["_id" := VOid doc_id]> (Hero.model_dump_exclude_id hero)).
Proof.
  exists (Hero.name hero), (Hero.secret_name hero).
  unfold Hero.model_dump_exclude_id. by simplify_map_eq.
Qed.
End CreateFacts.

(** ** Names *)

Section NameFacts.
Context `{Lax}.

Lemma of_option_not_internal {A} (o : option A) :
  Schema.of_option o <> InternalErr.
Proof. by destruct o. Qed.

Lemma str_field_not_internal k default (body : document) :
  Schema.field [k] Schema.str_schema default body <> InternalErr.
Proof.
  unfold Schema.field; cbn. destruct (body !! k) as [[]|]; cbn; try done.
  apply of_option_not_internal.
Qed.

Lemma int_field_not_internal k default (body : document) :
  Schema.field [k] (Schema.nullable Schema.int_schema) default body
  <> InternalErr.
Proof.
  unfold Schema.field; cbn.
  destruct (body !! k) as [[|b|z|s|oid|l|d]|]; cbn; try done.
  - by destruct (int_of_bool b).
  - by destruct (int_of_str s).
  - apply of_option_not_internal.
Qed.

(** Only the identifier can make validation of a hero raise. *)
Lemma Hero_validate_internal (body : document) :
  Hero.validate body = InternalErr ->
  Schema.field ["_id"; "id"] (Schema.nullable Schema.PyObjectId)
    (Some None) body = InternalErr.
Proof.
  unfold Hero.validate.
  pose proof (str_field_not_internal "name" None body) as Hn.
  pose proof (int_field_not_internal "age" (Some None) body) as Ha.
  pose proof (str_field_not_internal "secret_name" None body) as Hs.
  destruct (Schema.field ["_id"; "id"] _ _ body); [| |done];
    destruct (Schema.field ["name"] _ _ body); try done;
    destruct (Schema.field ["age"] _ _ body); try done;
    destruct (Schema.field ["secret_name"] _ _ body); done.
Qed.

(** A string field of the body that is not null is dumped as a string,
    if at all. *)
Lemma dump_str_field (body : document) (hero : HeroUpdate.t) f :
  HeroUpdate.validate body = Valid hero ->
  f = "name" \/ f = "secret_name" ->
  body !! f <> Some VNone ->
  HeroUpdate.model_dump_exclude_unset hero !! f = None \/
  exists s, HeroUpdate.model_dump_exclude_unset hero !! f = Some (VStr s).
Proof.
  intros Hval Hf Hnull.
  destruct (body !! f) as [v|] eqn:Hv;
    [|left; by eapply dump_lookup_absent].
  right.
  assert (Hin : f ∈ HeroUpdate.fields).
  { unfold HeroUpdate.fields. destruct Hf as [-> | ->]; set_solver. }
  destruct (dump_lookup_present body hero f v Hval Hin Hv)
    as (v' & -> & Hname & _ & Hsecret).
  assert (Hstr : forall o, Schema.nullable Schema.str_schema v = Valid o ->
                           exists s, Model.of_str o = VStr s).
  { intros o Ho. destruct v; try done. injection Ho as <-. cbn. eauto. }
  destruct Hf as [-> | ->].
  - destruct (Hname eq_refl) as [Hschema ->].
    destruct (Hstr _ Hschema) as [s ->]. eauto.
  - destruct (Hsecret eq_refl) as [Hschema ->].
    destruct (Hstr _ Hschema) as [s ->]. eauto.
Qed.

Lemma changes_keep_named (body : document) (hero : HeroUpdate.t)
    (data : document) :
  HeroUpdate.validate body = Valid hero ->
  body !! "name" <> Some VNone ->
  body !! "secret_name" <> Some VNone ->
  named data ->
  named (HeroUpdate.model_dump_exclude_unset hero ∪ data).
Proof.
  intros Hval Hn Hs (n & s & Hdn & Hds).
  destruct (dump_str_field body hero "name" Hval (or_introl eq_refl) Hn)
    as [Hcn | [n' Hcn]];
    destruct (dump_str_field body hero "secret_name" Hval (or_intror eq_refl) Hs)
      as [Hcs | [s' Hcs]].
  - exists n, s. by rewrite !lookup_union_r.
  - exists n, s'. rewrite lookup_union_r by done. split; [done|].
    by apply lookup_union_Some_l.
  - exists n', s. rewrite (lookup_union_r _ _ "secret_name") by done.
    split; [|done]. by apply lookup_union_Some_l.
  - exists n', s'. split; by apply lookup_union_Some_l.
Qed.

(** The documents after [PATCH /heroes/{id}]: the same, or one of them
    with the changes laid over it. *)
Lemma PATCH_hero_documents (hero_id : string) (body : document) (st : store) :
  documents (snd (PATCH_hero hero_id body st)) = documents st \/
  exists object_id hero data,
    HeroUpdate.validate body = Valid hero /\
    PyDict.get object_id (documents st) = Some data /\
    documents (snd (PATCH_hero hero_id body st))
      = PyDict.set object_id
          (HeroUpdate.model_dump_exclude_unset hero ∪ data) (documents st).
Proof.
  unfold PATCH_hero, with_param.
  destruct (HeroUpdate.validate body) as [hero| |] eqn:Hval;
    [|by left..].
  unfold respond. rewrite update_hero_run.
  destruct (ObjectId_of_str hero_id) as [object_id|]; [|by left].
  cbn zeta.
  destruct (1 <=? size (HeroUpdate.model_dump_exclude_unset hero))%nat.
  - destruct (PyDict.get object_id (documents st)) as [data|] eqn:Hget;
      [|by left].
    right. exists object_id, hero, data. split; [done|]. split; [done|].
    by destruct (fetched _ _) as [[]|].
  - left. by destruct (fetched _ _) as [[]|].
Qed.

Lemma DELETE_hero_documents (hero_id : string) (st : store) :
  documents (snd (DELETE_hero hero_id st)) = documents st \/
  exists object_id,
    documents (snd (DELETE_hero hero_id st))
      = PyDict.del object_id (documents st).
Proof.
  unfold DELETE_hero, respond. rewrite delete_hero_run.
  destruct (ObjectId_of_str hero_id) as [object_id|]; [|by left].
  cbn zeta. destruct (PyDict.get object_id (documents st)); [|by left].
  right. by exists object_id.
Qed.
End NameFacts.

(** Validation of an update raises nothing. *)
Section UpdateNeverRaises.
Context `{Lax}.

Lemma nullable_str_not_internal k (body : document) :
  Schema.field [k] (Schema.nullable Schema.str_schema) (Some None) body
  <> InternalErr.
Proof.
  unfold Schema.field; cbn. by destruct (body !! k) as [[]|].
Qed.

Lemma HeroUpdate_validate_not_internal (body : document) :
  HeroUpdate.validate body <> InternalErr.
Proof.
  unfold HeroUpdate.validate.
  pose proof (nullable_str_not_internal "name" body) as Hn.
  pose proof (int_field_not_internal "age" (Some None) body) as Ha.
  pose proof (nullable_str_not_internal "secret_name" body) as Hs.
  destruct (Schema.field ["name"] _ _ body); try done;
    destruct (Schema.field ["age"] _ _ body); try done;
    destruct (Schema.field ["secret_name"] _ _ body); done.
Qed.

End UpdateNeverRaises.

(** * The test-suite, run on the model *)

Module Tests.
#[local] Existing Instance Decimal.lax.

Example test_create_hero :
  fst (POST_heroes Example.doc_id Example.deadpond empty_store)
  = JSONResponse 200 (JObject (Hero.jsonable Example.deadpond_hero)).
Proof. vm_compute. reflexivity. Qed.

Example test_create_hero_incomplete :
  fst (POST_heroes Example.doc_id
         (<["name" := VStr "Deadpond"]> {[ "secret_name" := VStr "Dive Wilson" ]})
         empty_store)
  = JSONResponse 200
      (JObject (Hero.jsonable
         {| Hero.id := Some Example.doc_id; Hero.name := "Deadpond";
            Hero.age := None; Hero.secret_name := "Dive Wilson" |})).
Proof. vm_compute. reflexivity. Qed.

Example test_create_hero_invalid :
  POST_heroes Example.doc_id {[ "name" := VStr "Deadpond" ]} empty_store
  = (UnprocessableEntity, empty_store).
Proof. vm_compute. reflexivity. Qed.

Example test_read_heroes :
  exists heroes,
    fst (GET_heroes None None Example.two_heroes) = JSONResponse 200 (JArray heroes) /\
    length heroes = 2%nat.
Proof. eexists. split; vm_compute; reflexivity. Qed.

Example test_read_heroes_with_pagination :
  fst (GET_heroes None (Some "1") Example.two_heroes)
  = JSONResponse 200 (JArray [Hero.jsonable Example.deadpond_hero]).
Proof. vm_compute. reflexivity. Qed.

Example test_read_hero :
  fst (GET_hero Example.hero_id Example.two_heroes)
  = JSONResponse 200 (JObject (Hero.jsonable Example.deadpond_hero)).
Proof. vm_compute. reflexivity. Qed.

Example test_read_hero_not_found :
  status_code (fst (GET_hero Example.fake_id Example.two_heroes)) = 404%Z.
Proof. vm_compute. reflexivity. Qed.

Example test_read_hero_invalid_id :
  status_code (fst (GET_hero "invalid-id" Example.two_heroes)) = 400%Z.
Proof. vm_compute. reflexivity. Qed.

Example test_update_hero :
  fst (PATCH_hero Example.hero_id
         (<["name" := VStr "Deadpond Updated"]> {[ "age" := VInt 31 ]})
         Example.created)
  = JSONResponse 200
      (JObject (Hero.jsonable
         {| Hero.id := Some Example.doc_id; Hero.name := "Deadpond Updated";
            Hero.age := Some 31%Z; Hero.secret_name := "Dive Wilson" |})).
Proof. vm_compute. reflexivity. Qed.

Example test_update_hero_not_found :
  status_code
    (fst (PATCH_hero Example.fake_id {[ "name" := VStr "Updated" ]}
            Example.created)) = 404%Z.
Proof. vm_compute. reflexivity. Qed.

Example test_update_hero_invalid_id :
  status_code
    (fst (PATCH_hero "invalid-id" {[ "name" := VStr "Updated" ]}
            Example.created)) = 400%Z.
Proof. vm_compute. reflexivity. Qed.

Example test_delete_hero :
  let deleted := DELETE_hero Example.hero_id Example.created in
  fst deleted = JSONResponse 200 (JObject {[ "ok" := VBool true ]}) /\
  status_code (fst (GET_hero Example.hero_id (snd deleted))) = 404%Z.
Proof. vm_compute. split; reflexivity. Qed.

Example test_delete_hero_not_found :
  status_code (fst (DELETE_hero Example.fake_id Example.created)) = 404%Z.
Proof. vm_compute. reflexivity. Qed.

Example test_delete_hero_invalid_id :
  status_code (fst (DELETE_hero "invalid-id" Example.created)) = 400%Z.
Proof. vm_compute. reflexivity. Qed.

End Tests.

(** * The specification's properties *)

(** C1. A hero created by [POST /heroes/] is read back by
    [GET /heroes/{id}] with the identifier the create returned: the same
    JSON object (same [_id], [name], [secret_name], [age]), status 200. *)
Theorem create_then_read `{Lax} (doc_id : ObjectId) (body : document)
    (st st1 : store) (o : document) :
  generated doc_id ->
  POST_heroes doc_id body st = (JSONResponse 200 (JObject o), st1) ->
  exists hero_id hero,
    Hero.validate body = Valid hero /\
    o = Hero.jsonable (Hero.with_id doc_id hero) /\
    o !! "_id" = Some (VStr hero_id) /\
    GET_hero hero_id st1 =
      (JSONResponse 200 (JObject o), logged (find_one_call doc_id) st1).
Proof.
  intros Hgen Hpost. unfold POST_heroes, with_param in Hpost.
  destruct (Hero.validate body) as [hero| |] eqn:Hval; [|done..].
  unfold respond in Hpost. rewrite create_hero_run in Hpost.
  injection Hpost as <- <-.
  exists (ObjectId_str doc_id), hero. split; [done|]. split; [done|]. split.
  - unfold Hero.jsonable. by rewrite lookup_insert_eq.
  - unfold GET_hero, respond. rewrite read_hero_run, ObjectId_of_str_str by done.
    unfold fetched, with_documents; cbn [documents].
    rewrite get_set_eq. unfold init_result. by rewrite Hero_validate_dumped.
Qed.

Lemma create_then_read_witness :
  exists hero_id hero,
    Hero.validate (H := Decimal.lax) Example.deadpond = Valid hero /\
    Hero.jsonable Example.deadpond_hero
      = Hero.jsonable (Hero.with_id Example.doc_id hero) /\
    Hero.jsonable Example.deadpond_hero !! "_id" = Some (VStr hero_id) /\
    GET_hero (H := Decimal.lax) hero_id Example.created =
      (JSONResponse 200 (JObject (Hero.jsonable Example.deadpond_hero)),
       logged (find_one_call Example.doc_id) Example.created).
Proof.
  apply (create_then_read (H := Decimal.lax) Example.doc_id Example.deadpond
           empty_store Example.created (Hero.jsonable Example.deadpond_hero)).
  - reflexivity.
  - vm_compute. reflexivity.
Defined.

(** C2, as stated, fails: the record may be there and the answer not be
    200. After an update has set Deadpond's name to null, the stored
    document is no hero, and an update that sets no field, which only
    re-fetches it, ends in a server error. *)
Lemma empty_update_refetches_counterexample :
  ObjectId_of_str Example.hero_id = Some Example.doc_id /\
  PyDict.get Example.doc_id (documents Example.nameless)
    = Some (<["name" := VNone]>
              (<["_id" := VOid Example.doc_id]> Example.deadpond)) /\
  HeroUpdate.validate (H := Decimal.lax) ∅
    = Valid {| HeroUpdate.name := None; HeroUpdate.age := None;
               HeroUpdate.secret_name := None;
               HeroUpdate.model_fields_set := ∅ |} /\
  PATCH_hero (H := Decimal.lax) Example.hero_id ∅ Example.nameless
    = (InternalServerError,
       logged (find_one_call Example.doc_id) Example.nameless).
Proof. vm_compute. repeat split; reflexivity. Qed.

(** C2, amended. [PATCH /heroes/{id}] with a well-formed identifier and a
    body that sets no field makes one call on the collection, the
    re-fetch, and leaves the documents alone; when the record is there
    and is a hero (the stored document validates as one) the answer is
    200 with that record, and the answer is 404 exactly when the re-fetch
    finds nothing. *)
Theorem empty_update_refetches `{Lax} (hero_id : string) (object_id : ObjectId)
    (body : document) (hero : HeroUpdate.t) (st : store) :
  ObjectId_of_str hero_id = Some object_id ->
  HeroUpdate.validate body = Valid hero ->
  (forall f, f ∈ HeroUpdate.fields -> body !! f = None) ->
  snd (PATCH_hero hero_id body st) = logged (find_one_call object_id) st /\
  (forall data current,
     PyDict.get object_id (documents st) = Some data ->
     Hero.validate data = Valid current ->
     exists o,
       fst (PATCH_hero hero_id body st) = JSONResponse 200 (JObject o) /\
       o = Hero.jsonable current /\
       o !! "name" = data !! "name" /\
       o !! "secret_name" = data !! "secret_name" /\
       o !! "age" = Some (Model.of_int (Hero.age current)) /\
       o !! "_id" = Some (Model.of_str (ObjectId_str <$> Hero.id current))) /\
  (PyDict.get object_id (documents st) = None ->
     fst (PATCH_hero hero_id body st) = detail_response 404 "Hero not found") /\
  (status_code (fst (PATCH_hero hero_id body st)) = 404%Z ->
     PyDict.get object_id (documents st) = None).
Proof.
  intros Hid Hval Hunset.
  unfold PATCH_hero, with_param. rewrite Hval. unfold respond.
  rewrite update_hero_run, Hid. cbn zeta.
  rewrite (dump_empty body hero Hval Hunset), map_size_empty.
  cbn [Nat.leb]. unfold fetched, init_result.
  destruct (PyDict.get object_id (documents st)) as [data|].
  - split; [by destruct (Hero.validate data)|]. split; [|split; [done|]].
    + intros ? current [= <-] Hcur. rewrite Hcur.
      exists (Hero.jsonable current). split; [done|]. split; [done|].
      apply Hero_validate_Valid in Hcur as (_ & Hn & _ & Hs).
      unfold Schema.field in Hn, Hs; cbn in Hn, Hs.
      unfold Hero.jsonable, Hero.model_dump_exclude_id.
      destruct (data !! "name") as [[]|]; try done.
      destruct (data !! "secret_name") as [[]|]; try done.
      cbn in Hn, Hs. injection Hn as <-. injection Hs as <-.
      repeat split; by simplify_map_eq.
    + by destruct (Hero.validate data).
  - cbn. repeat split; done.
Qed.

Lemma empty_update_refetches_witness :
  snd (PATCH_hero (H := Decimal.lax) Example.hero_id ∅ Example.created)
    = logged (find_one_call Example.doc_id) Example.created /\
  (forall data current,
     PyDict.get Example.doc_id (documents Example.created) = Some data ->
     Hero.validate (H := Decimal.lax) data = Valid current ->
     exists o,
       fst (PATCH_hero (H := Decimal.lax) Example.hero_id ∅ Example.created)
         = JSONResponse 200 (JObject o) /\
       o = Hero.jsonable current /\
       o !! "name" = data !! "name" /\
       o !! "secret_name" = data !! "secret_name" /\
       o !! "age" = Some (Model.of_int (Hero.age current)) /\
       o !! "_id" = Some (Model.of_str (ObjectId_str <$> Hero.id current))) /\
  (PyDict.get Example.doc_id (documents Example.created) = None ->
     fst (PATCH_hero (H := Decimal.lax) Example.hero_id ∅ Example.created)
       = detail_response 404 "Hero not found") /\
  (status_code (fst (PATCH_hero (H := Decimal.lax) Example.hero_id ∅ Example.created))
     = 404%Z ->
     PyDict.get Example.doc_id (documents Example.created) = None).
Proof.
  apply (empty_update_refetches (H := Decimal.lax) Example.hero_id Example.doc_id ∅
           {| HeroUpdate.name := None; HeroUpdate.age := None;
              HeroUpdate.secret_name := None; HeroUpdate.model_fields_set := ∅ |}).
  - reflexivity.
  - vm_compute. reflexivity.
  - intros f _. apply lookup_empty.
Defined.




(** C4, as stated, fails for [PATCH]: the body is validated before the
    handler looks at the identifier, so a bad identifier with a body that
    is no [HeroUpdate] is answered 422, not 400. *)
Lemma invalid_identifier_rejected_counterexample :
  ObjectId_of_str "invalid-id" = None /\
  PATCH_hero (H := Decimal.lax) "invalid-id" {[ "name" := VInt 5 ]}
    Example.created
  = (UnprocessableEntity, Example.created).
Proof. vm_compute. split; reflexivity. Qed.

(** C4, amended. With a path identifier that the store's identifier type
    does not accept, [GET] and [DELETE /heroes/{id}], and
    [PATCH /heroes/{id}] with a body that is a [HeroUpdate], answer 400
    "Invalid hero ID format"; [PATCH] with any other body answers 422. In
    every one of these cases no call is made on the collection, whatever
    the collection holds. *)
Theorem invalid_identifier_rejected `{Lax} (hero_id : string) (st : store) :
  ObjectId_of_str hero_id = None ->
  GET_hero hero_id st = (detail_response 400 "Invalid hero ID format", st) /\
  (forall body hero,
     HeroUpdate.validate body = Valid hero ->
     PATCH_hero hero_id body st
       = (detail_response 400 "Invalid hero ID format", st)) /\
  DELETE_hero hero_id st = (detail_response 400 "Invalid hero ID format", st) /\
  (forall body,
     (forall hero, HeroUpdate.validate body <> Valid hero) ->
     PATCH_hero hero_id body st = (UnprocessableEntity, st)).
Proof.
  intros Hid. split; [|split; [|split]].
  - unfold GET_hero, respond. by rewrite read_hero_run, Hid.
  - intros body hero Hval. unfold PATCH_hero, with_param. rewrite Hval.
    unfold respond. by rewrite update_hero_run, Hid.
  - unfold DELETE_hero, respond. by rewrite delete_hero_run, Hid.
  - intros body Hbad. unfold PATCH_hero, with_param.
    pose proof (HeroUpdate_validate_not_internal body) as Hint.
    destruct (HeroUpdate.validate body) as [hero| |]; [|done..].
    by destruct (Hbad hero).
Qed.

Lemma invalid_identifier_rejected_witness :
  GET_hero (H := Decimal.lax) "invalid-id" Example.created
    = (detail_response 400 "Invalid hero ID format", Example.created) /\
  (forall body hero,
     HeroUpdate.validate (H := Decimal.lax) body = Valid hero ->
     PATCH_hero (H := Decimal.lax) "invalid-id" body Example.created
       = (detail_response 400 "Invalid hero ID format", Example.created)) /\
  DELETE_hero "invalid-id" Example.created
    = (detail_response 400 "Invalid hero ID format", Example.created) /\
  (forall body,
     (forall hero, HeroUpdate.validate (H := Decimal.lax) body <> Valid hero) ->
     PATCH_hero (H := Decimal.lax) "invalid-id" body Example.created
       = (UnprocessableEntity, Example.created)).
Proof.
  apply (invalid_identifier_rejected (H := Decimal.lax) "invalid-id"
           Example.created).
  reflexivity.
Defined.




(** C6. With a well-formed identifier that names no record,
    [DELETE /heroes/{id}] answers 404, and so does [PATCH /heroes/{id}]
    with a body that sets at least one field; the documents of the
    collection are what they were. *)
Theorem absent_record_not_found `{Lax} (hero_id : string) (object_id : ObjectId)
    (st : store) :
  ObjectId_of_str hero_id = Some object_id ->
  PyDict.get object_id (documents st) = None ->
  (fst (DELETE_hero hero_id st) = detail_response 404 "Hero not found" /\
   documents (snd (DELETE_hero hero_id st)) = documents st) /\
  (forall body hero f,
     HeroUpdate.validate body = Valid hero ->
     f ∈ HeroUpdate.fields -> is_Some (body !! f) ->
     fst (PATCH_hero hero_id body st) = detail_response 404 "Hero not found" /\
     documents (snd (PATCH_hero hero_id body st)) = documents st).
Proof.
  intros Hid Hget. split.
  - unfold DELETE_hero, respond. by rewrite delete_hero_run, Hid, Hget.
  - intros body hero f Hval Hf Hset.
    unfold PATCH_hero, with_param. rewrite Hval. unfold respond.
    rewrite update_hero_run, Hid. cbn zeta.
    by rewrite (dump_nonempty body hero f Hval Hf Hset), Hget.
Qed.

Lemma absent_record_not_found_witness :
  (fst (DELETE_hero Example.fake_id Example.created)
     = detail_response 404 "Hero not found" /\
   documents (snd (DELETE_hero Example.fake_id Example.created))
     = documents Example.created) /\
  (forall body hero f,
     HeroUpdate.validate (H := Decimal.lax) body = Valid hero ->
     f ∈ HeroUpdate.fields -> is_Some (body !! f) ->
     fst (PATCH_hero (H := Decimal.lax) Example.fake_id body Example.created)
       = detail_response 404 "Hero not found" /\
     documents (snd (PATCH_hero (H := Decimal.lax) Example.fake_id body Example.created))
       = documents Example.created).
Proof.
  apply (absent_record_not_found (H := Decimal.lax) Example.fake_id
           (repeat x00 12) Example.created).
  - reflexivity.
  - reflexivity.
Defined.

(** C7. [DELETE /heroes/{id}] of a record that is there answers 200 with
    [{"ok": true}]; afterwards the collection has lost that record and no
    other, and [GET /heroes/{id}] with the same identifier answers 404. *)
Theorem delete_then_read `{Lax} (hero_id : string) (object_id : ObjectId)
    (data : document) (st : store) :
  ObjectId_of_str hero_id = Some object_id ->
  PyDict.get object_id (documents st) = Some data ->
  let st1 := snd (DELETE_hero hero_id st) in
  fst (DELETE_hero hero_id st)
    = JSONResponse 200 (JObject {[ "ok" := VBool true ]}) /\
  documents st1 = PyDict.del object_id (documents st) /\
  PyDict.get object_id (documents st1) = None /\
  (forall k, k ≠ object_id ->
     PyDict.get k (documents st1) = PyDict.get k (documents st)) /\
  fst (GET_hero hero_id st1) = detail_response 404 "Hero not found".
Proof.
  intros Hid Hget st1. subst st1.
  unfold DELETE_hero, GET_hero, respond.
  rewrite delete_hero_run, Hid, Hget. cbn.
  split; [done|]. split; [done|]. split; [apply get_del_eq|].
  split; [by intros k Hk; apply get_del_ne|].
  rewrite read_hero_run, Hid. unfold fetched. cbn.
  by rewrite get_del_eq.
Qed.

Lemma delete_then_read_witness :
  let st1 := snd (DELETE_hero Example.hero_id Example.created) in
  fst (DELETE_hero Example.hero_id Example.created)
    = JSONResponse 200 (JObject {[ "ok" := VBool true ]}) /\
  documents st1 = PyDict.del Example.doc_id (documents Example.created) /\
  PyDict.get Example.doc_id (documents st1) = None /\
  (forall k, k ≠ Example.doc_id ->
     PyDict.get k (documents st1) = PyDict.get k (documents Example.created)) /\
  fst (GET_hero (H := Decimal.lax) Example.hero_id st1)
    = detail_response 404 "Hero not found".
Proof.
  apply (delete_then_read (H := Decimal.lax) Example.hero_id Example.doc_id
           (<["_id" := VOid Example.doc_id]> Example.deadpond) Example.created).
  - reflexivity.
  - vm_compute. reflexivity.
Defined.

(** C8, as stated, fails: an identifier in the body is validated, not
    ignored. With the number 5 for [_id] the create is refused. *)
Lemma create_without_age_counterexample :
  let body : document :=
    <["_id" := VInt 5]>
      (<["name" := VStr "Deadpond"]> {[ "secret_name" := VStr "Dive Wilson" ]}) in
  body !! "age" = None /\
  POST_heroes (H := Decimal.lax) Example.doc_id body empty_store
    = (UnprocessableEntity, empty_store).
Proof. vm_compute. split; reflexivity. Qed.

(** C8, amended. A body with strings for [name] and [secret_name], no
    [age], and an identifier that is absent, null or a well-formed
    identifier string is created: the answer is 200 with the two names,
    [age] null and the identifier the store assigned, a string of 24
    characters that reads back as that identifier; the stored document has
    the assigned identifier too. The identifier of the body occurs in
    neither. *)
Theorem create_without_age `{Lax} (doc_id : ObjectId) (body : document)
    (n s : string) (st : store) :
  generated doc_id ->
  body !! "name" = Some (VStr n) ->
  body !! "secret_name" = Some (VStr s) ->
  body !! "age" = None ->
  id_accepted body ->
  let created :=
    {| Hero.id := Some doc_id; Hero.name := n; Hero.age := None;
       Hero.secret_name := s |} in
  let st1 := snd (POST_heroes doc_id body st) in
  fst (POST_heroes doc_id body st)
    = JSONResponse 200 (JObject (Hero.jsonable created)) /\
  Hero.jsonable created !! "age" = Some VNone /\
  Hero.jsonable created !! "_id" = Some (VStr (ObjectId_str doc_id)) /\
  String.length (ObjectId_str doc_id) = 24%nat /\
  ObjectId_of_str (ObjectId_str doc_id) = Some doc_id /\
  PyDict.get doc_id (documents st1)
    = Some (<["_id" := VOid doc_id]> (Hero.model_dump_exclude_id created)).
Proof.
  intros Hgen Hn Hs Ha Hid created st1. subst st1.
  destruct (id_field_accepted body Hid) as [i Hi].
  assert (Hval : Hero.validate body =
                 Valid {| Hero.id := i; Hero.name := n; Hero.age := None;
                          Hero.secret_name := s |}).
  { apply Hero_validate_Valid. cbn [Hero.id Hero.name Hero.age Hero.secret_name].
    split; [done|]. unfold Schema.field; cbn. by rewrite Hn, Hs, Ha. }
  rewrite POST_heroes_run, Hval. cbn [fst snd].
  split; [done|]. split; [done|]. split; [done|].
  split; [by apply ObjectId_str_length|].
  split; [by apply ObjectId_of_str_str|].
  unfold with_documents; cbn [documents]. apply get_set_eq.
Qed.

Lemma create_without_age_witness :
  let body : document :=
    <["_id" := VStr Example.fake_id]>
      (<["name" := VStr "Deadpond"]> {[ "secret_name" := VStr "Dive Wilson" ]}) in
  let created :=
    {| Hero.id := Some Example.doc_id; Hero.name := "Deadpond";
       Hero.age := None; Hero.secret_name := "Dive Wilson" |} in
  let st1 := snd (POST_heroes (H := Decimal.lax) Example.doc_id body empty_store) in
  fst (POST_heroes (H := Decimal.lax) Example.doc_id body empty_store)
    = JSONResponse 200 (JObject (Hero.jsonable created)) /\
  Hero.jsonable created !! "age" = Some VNone /\
  Hero.jsonable created !! "_id" = Some (VStr (ObjectId_str Example.doc_id)) /\
  String.length (ObjectId_str Example.doc_id) = 24%nat /\
  ObjectId_of_str (ObjectId_str Example.doc_id) = Some Example.doc_id /\
  PyDict.get Example.doc_id (documents st1)
    = Some (<["_id" := VOid Example.doc_id]> (Hero.model_dump_exclude_id created)).
Proof.
  apply (create_without_age (H := Decimal.lax) Example.doc_id
           (<["_id" := VStr Example.fake_id]>
              (<["name" := VStr "Deadpond"]>
                 {[ "secret_name" := VStr "Dive Wilson" ]}))
           "Deadpond" "Dive Wilson" empty_store).
  - reflexivity.
  - reflexivity.
  - reflexivity.
  - reflexivity.
  - right; right. exists Example.fake_id, (repeat x00 12). split; reflexivity.
Defined.

(** C9, as stated, fails: nothing asks for a name to be non-empty. A body
    with the empty string for both names is created and stored. *)
Lemma names_are_strings_counterexample :
  let body : document := <["name" := VStr ""]> {[ "secret_name" := VStr "" ]} in
  let result := POST_heroes (H := Decimal.lax) Example.doc_id body empty_store in
  status_code (fst result) = 200%Z /\
  exists data,
    PyDict.get Example.doc_id (documents (snd result)) = Some data /\
    data !! "name" = Some (VStr "") /\
    data !! "secret_name" = Some (VStr "").
Proof.
  cbv zeta. split; [vm_compute; reflexivity|].
  eexists. split; [vm_compute; reflexivity|]. split; vm_compute; reflexivity.
Qed.

(** C9, amended. In a collection whose documents all have a string for
    [name] and for [secret_name] (either may be empty), this stays so
    through every create, every delete, and every update whose body sets
    neither of them to null. A create whose body lacks a required field
    persists nothing, and is refused with 422 unless the body carries an
    identifier string that is no identifier. *)
Theorem names_are_strings `{Lax} (st : store) :
  all_named st ->
  (forall doc_id body, all_named (snd (POST_heroes doc_id body st))) /\
  (forall hero_id body,
     body !! "name" <> Some VNone -> body !! "secret_name" <> Some VNone ->
     all_named (snd (PATCH_hero hero_id body st))) /\
  (forall hero_id, all_named (snd (DELETE_hero hero_id st))) /\
  (forall doc_id body,
     body !! "name" = None \/ body !! "secret_name" = None ->
     snd (POST_heroes doc_id body st) = st /\
     (~ id_malformed body ->
      fst (POST_heroes doc_id body st) = UnprocessableEntity)).
Proof.
  unfold all_named. intros Hst. split; [|split; [|split]].
  - intros doc_id body. rewrite POST_heroes_run.
    destruct (Hero.validate body) as [hero| |]; [|done..].
    cbn. apply Forall_values_set; [apply named_dumped | done].
  - intros hero_id body Hn Hs.
    destruct (PATCH_hero_documents hero_id body st)
      as [-> | (object_id & hero & data & Hval & Hget & ->)]; [done|].
    apply Forall_values_set; [|done].
    apply (changes_keep_named body); [done..|].
    rewrite Forall_forall in Hst. apply Hst.
    apply list_elem_of_In. by eapply get_values.
  - intros hero_id.
    destruct (DELETE_hero_documents hero_id st) as [-> | [object_id ->]];
      [done|].
    by apply Forall_values_del.
  - intros doc_id body Hmiss. rewrite POST_heroes_run.
    destruct (Hero.validate body) as [hero| |] eqn:Hval.
    + by apply Hero_validate_missing in Hval.
    + done.
    + split; [done|]. intros Hid.
      apply Hero_validate_internal in Hval.
      by apply id_field_not_malformed in Hid.
Qed.

Lemma names_are_strings_witness :
  (forall doc_id body,
     all_named (snd (POST_heroes (H := Decimal.lax) doc_id body Example.created))) /\
  (forall hero_id body,
     body !! "name" <> Some VNone -> body !! "secret_name" <> Some VNone ->
     all_named (snd (PATCH_hero (H := Decimal.lax) hero_id body Example.created))) /\
  (forall hero_id, all_named (snd (DELETE_hero hero_id Example.created))) /\
  (forall doc_id body,
     body !! "name" = None \/ body !! "secret_name" = None ->
     snd (POST_heroes (H := Decimal.lax) doc_id body Example.created)
       = Example.created /\
     (~ id_malformed body ->
      fst (POST_heroes (H := Decimal.lax) doc_id body Example.created)
        = UnprocessableEntity)).
Proof.
  apply (names_are_strings (H := Decimal.lax) Example.created).
  repeat constructor. exists "Deadpond", "Dive Wilson". split; reflexivity.
Defined.

(** C10. In [PATCH /heroes/{id}] on a record that is there, a field that
    the body gives as null is a set field: it is in the changes passed to
    [update_one], and the stored document then has null for it; a field
    that the body does not have is not in the changes, and the stored
    document keeps what it had for it. *)
Theorem explicit_null_is_set `{Lax} (hero_id : string) (object_id : ObjectId)
    (body : document) (hero : HeroUpdate.t) (data : document) (st : store)
    (f : string) :
  ObjectId_of_str hero_id = Some object_id ->
  PyDict.get object_id (documents st) = Some data ->
  HeroUpdate.validate body = Valid hero ->
  f ∈ HeroUpdate.fields ->
  let changes := HeroUpdate.model_dump_exclude_unset hero in
  let st1 := snd (PATCH_hero hero_id body st) in
  (body !! f = Some VNone ->
     changes !! f = Some VNone /\
     calls st1 = (calls st ++ [update_one_call object_id changes;
                               find_one_call object_id])%list /\
     exists data1, PyDict.get object_id (documents st1) = Some data1 /\
                   data1 !! f = Some VNone) /\
  (body !! f = None ->
     changes !! f = None /\
     exists data1, PyDict.get object_id (documents st1) = Some data1 /\
                   data1 !! f = data !! f).
Proof.
  intros Hid Hget Hval Hf changes st1.
  destruct (PATCH_hero_found hero_id object_id body hero data st Hid Hget Hval)
    as (_ & Hstored & _ & Hcalls).
  fold changes in Hstored, Hcalls. fold st1 in Hstored, Hcalls. split.
  - intros Hnull.
    pose proof (dump_lookup_null body hero f Hval Hf Hnull) as Hchange.
    fold changes in Hchange. split; [done|]. split.
    + rewrite Hcalls. unfold changes.
      by rewrite (dump_nonempty body hero f Hval Hf (mk_is_Some _ _ Hnull)).
    + exists (changes ∪ data). split; [done|].
      by apply lookup_union_Some_l.
  - intros Habsent.
    pose proof (dump_lookup_absent body hero f Hval Habsent) as Hchange.
    fold changes in Hchange. split; [done|].
    exists (changes ∪ data). split; [done|].
    by apply lookup_union_r.
Qed.

Lemma explicit_null_is_set_witness :
  let body : document := {[ "age" := VNone ]} in
  let changes : document :=
    HeroUpdate.model_dump_exclude_unset
      {| HeroUpdate.name := None; HeroUpdate.age := None;
         HeroUpdate.secret_name := None;
         HeroUpdate.model_fields_set := {[ "age" ]} |} in
  let st1 := snd (PATCH_hero (H := Decimal.lax) Example.hero_id body Example.created) in
  (body !! "age" = Some VNone ->
     changes !! "age" = Some VNone /\
     calls st1 = (calls Example.created
                    ++ [update_one_call Example.doc_id changes;
                        find_one_call Example.doc_id])%list /\
     exists data1, PyDict.get Example.doc_id (documents st1) = Some data1 /\
                   data1 !! "age" = Some VNone) /\
  (body !! "age" = None ->
     changes !! "age" = None /\
     exists data1, PyDict.get Example.doc_id (documents st1) = Some data1 /\
                   data1 !! "age"
                   = (<["_id" := VOid Example.doc_id]> Example.deadpond) !! "age").
Proof.
  apply (explicit_null_is_set (H := Decimal.lax) Example.hero_id Example.doc_id
           {[ "age" := VNone ]}
           {| HeroUpdate.name := None; HeroUpdate.age := None;
              HeroUpdate.secret_name := None;
              HeroUpdate.model_fields_set := {[ "age" ]} |}
           (<["_id" := VOid Example.doc_id]> Example.deadpond) Example.created
           "age").
  - reflexivity.
  - vm_compute. reflexivity.
  - vm_compute. reflexivity.
  - unfold HeroUpdate.fields. right. left.
Defined.

(** * Further properties of the code *)

(** ** The dict behind the collection *)

Section DictOrder.
Context {K V : Type} `{EqDecision K}.
Implicit Types (k : K) (v : V) (d : PyDict.dict K V).

Lemma get_None_keys k d : PyDict.get k d = None <-> ~ In k (PyDict.keys d).
Proof.
  induction d as [|[k' v'] d IH]; cbn; [tauto|].
  destruct (decide (k = k')) as [->|Hne].
  - split; [done | intros Hk; exfalso; apply Hk; by left].
  - rewrite IH. split; [intros Hk [Heq|Hin]; [congruence | done] | tauto].
Qed.

Lemma set_present k v d :
  is_Some (PyDict.get k d) ->
  PyDict.keys (PyDict.set k v d) = PyDict.keys d.
Proof.
  induction d as [|[k' v'] d IH]; cbn; [by intros [? ?]|].
  destruct (decide (k = k')) as [->|Hne]; cbn; [done|].
  intros Hk. f_equal. by apply IH.
Qed.

Lemma set_fresh k v d :
  PyDict.get k d = None -> PyDict.set k v d = d ++ [(k, v)].
Proof.
  induction d as [|[k' v'] d IH]; cbn; [done|].
  destruct (decide (k = k')); [done|]. intros Hk. by rewrite IH.
Qed.

Lemma set_set k v v' d :
  PyDict.set k v (PyDict.set k v' d) = PyDict.set k v d.
Proof.
  induction d as [|[k0 v0] d IH]; cbn.
  - by rewrite decide_True.
  - destruct (decide (k = k0)) as [->|Hne]; cbn.
    + by rewrite decide_True.
    + rewrite decide_False by done. by rewrite IH.
Qed.

Lemma del_absent k d : PyDict.get k d = None -> PyDict.del k d = d.
Proof.
  induction d as [|[k' v'] d IH]; cbn; [done|].
  destruct (decide (k = k')); [done|]. intros Hk. by rewrite IH.
Qed.

Lemma keys_del_subset k k' d :
  In k' (PyDict.keys (PyDict.del k d)) <-> In k' (PyDict.keys d) /\ k' <> k.
Proof.
  induction d as [|[k0 v0] d IH]; cbn; [tauto|].
  destruct (decide (k = k0)) as [->|Hne]; cbn; rewrite IH.
  - split; [tauto|]. intros [[->|Hin] Hk]; [done | tauto].
  - split; [intros [->|[Hin Hk]]; [split; [by left | congruence] | tauto]
           | tauto].
Qed.

Lemma wf_set k v d : PyDict.wf d -> PyDict.wf (PyDict.set k v d).
Proof.
  unfold PyDict.wf. destruct (PyDict.get k d) as [v'|] eqn:Hget.
  - by rewrite set_present by eauto.
  - rewrite set_fresh by done. unfold PyDict.keys. rewrite map_app. cbn.
    intros Hd. apply NoDup_app. split; [done|]. split.
    + intros k' Hin ->%list_elem_of_singleton.
      apply get_None_keys in Hget. apply Hget. by apply list_elem_of_In.
    + apply NoDup_singleton.
Qed.

Lemma wf_del k d : PyDict.wf d -> PyDict.wf (PyDict.del k d).
Proof.
  unfold PyDict.wf. induction d as [|[k0 v0] d IH]; cbn; [done|].
  intros [Hk0 Hd]%NoDup_cons. destruct (decide (k = k0)); cbn; [auto|].
  apply NoDup_cons. split; [|auto].
  intros Hin%list_elem_of_In%keys_del_subset. apply Hk0.
  apply list_elem_of_In. tauto.
Qed.
End DictOrder.

(** ** The mock collection *)

(** X1. A document that [insert_one] has stored is what [find_one] returns
    for the identifier [insert_one] gave back: the inserted entries and
    [_id]. What [find_one] returns for any other identifier is as
    before. *)
Theorem insert_then_find (doc_id : ObjectId) (doc : document) (st : store) :
  let st1 := snd (Collection.insert_one doc_id doc st) in
  fst (Collection.insert_one doc_id doc st) = inr doc_id /\
  fst (Collection.find_one doc_id st1)
    = inr (Some (<["_id" := VOid doc_id]> doc)) /\
  forall other, other <> doc_id ->
    fst (Collection.find_one other st1) = fst (Collection.find_one other st).
Proof.
  cbn. split; [done|]. split.
  - by rewrite get_set_eq.
  - intros other Hne. by rewrite get_set_ne.
Qed.

(** X2. A document inserted under an identifier that is not in use goes
    to the end of the collection: a cursor opened afterwards holds the
    documents it held before, in their order, and then the new one. *)
Theorem insert_goes_last (doc_id : ObjectId) (doc : document) (st : store) :
  PyDict.get doc_id (documents st) = None ->
  let st1 := snd (Collection.insert_one doc_id doc st) in
  exists before,
    fst (Collection.find st)
      = inr {| Collection.docs := before; Collection.skip_count := 0;
               Collection.limit_count := None |} /\
    fst (Collection.find st1)
      = inr {| Collection.docs := before ++ [<["_id" := VOid doc_id]> doc];
               Collection.skip_count := 0; Collection.limit_count := None |}.
Proof.
  intros Hfresh. exists (PyDict.values (documents st)). cbn.
  split; [done|]. rewrite set_fresh by done.
  unfold PyDict.values. by rewrite map_app.
Qed.

Lemma insert_goes_last_witness :
  let st1 :=
    snd (Collection.insert_one Example.spider_id Example.spider_boy
           Example.created) in
  exists before,
    fst (Collection.find Example.created)
      = inr {| Collection.docs := before; Collection.skip_count := 0;
               Collection.limit_count := None |} /\
    fst (Collection.find st1)
      = inr {| Collection.docs :=
                 before ++ [<["_id" := VOid Example.spider_id]> Example.spider_boy];
               Collection.skip_count := 0; Collection.limit_count := None |}.
Proof.
  apply (insert_goes_last Example.spider_id Example.spider_boy Example.created).
  vm_compute. reflexivity.
Defined.

(** X3. [update_one] reports one match exactly when the identifier is in
    the collection, and no match otherwise. It never adds, removes or
    moves a document; with no match the documents are untouched; with a
    match the document becomes the changes laid over what it was, and the
    other documents stay. *)
Theorem update_one_matches (doc_id : ObjectId) (changes : document)
    (st : store) :
  let result := Collection.update_one doc_id changes st in
  (fst result = inr 1%Z \/ fst result = inr 0%Z) /\
  (fst result = inr 1%Z <-> is_Some (PyDict.get doc_id (documents st))) /\
  PyDict.keys (documents (snd result)) = PyDict.keys (documents st) /\
  (PyDict.get doc_id (documents st) = None ->
   documents (snd result) = documents st) /\
  (forall doc, PyDict.get doc_id (documents st) = Some doc ->
   PyDict.get doc_id (documents (snd result)) = Some (changes ∪ doc)) /\
  (forall other, other <> doc_id ->
   PyDict.get other (documents (snd result)) = PyDict.get other (documents st)).
Proof.
  unfold Collection.update_one, bind, called, get_documents. cbn.
  destruct (PyDict.get doc_id (documents st)) as [doc|] eqn:Hget; cbn.
  - split; [by left|]. split; [by split; eauto|].
    split; [apply set_present; rewrite Hget; eauto|]. split; [done|].
    split; [intros ? [= <-]; apply get_set_eq|].
    intros other Hne. by apply get_set_ne.
  - split; [by right|]. split; [split; [done | by intros [? ?]]|].
    repeat split; done.
Qed.

(** X4. [update_one] with the same changes a second time changes no
    document: the documents after two runs are the documents after
    one. *)
Theorem update_one_twice (doc_id : ObjectId) (changes : document) (st : store) :
  let st1 := snd (Collection.update_one doc_id changes st) in
  documents (snd (Collection.update_one doc_id changes st1)) = documents st1.
Proof.
  unfold Collection.update_one, bind, called, get_documents. cbn.
  destruct (PyDict.get doc_id (documents st)) as [doc|] eqn:Hget; cbn.
  - rewrite get_set_eq. cbn. rewrite set_set. f_equal.
    apply map_eq. intros k. rewrite !lookup_union.
    by destruct (changes !! k), (doc !! k).
  - by rewrite Hget.
Qed.

(** X5. [delete_one] reports one deletion exactly when the identifier is
    in the collection. Afterwards the identifier is not in the collection
    and the other documents are; a second [delete_one] for it reports no
    deletion and leaves the documents as they are. *)
Theorem delete_one_once (doc_id : ObjectId) (st : store) :
  let result := Collection.delete_one doc_id st in
  let again := Collection.delete_one doc_id (snd result) in
  (fst result = inr 1%Z <-> is_Some (PyDict.get doc_id (documents st))) /\
  (fst result = inr 0%Z <-> PyDict.get doc_id (documents st) = None) /\
  PyDict.get doc_id (documents (snd result)) = None /\
  (forall other, other <> doc_id ->
   PyDict.get other (documents (snd result)) = PyDict.get other (documents st)) /\
  fst again = inr 0%Z /\
  documents (snd again) = documents (snd result).
Proof.
  unfold Collection.delete_one, bind, called, get_documents, PyDict.contains.
  cbn. destruct (PyDict.get doc_id (documents st)) as [doc|] eqn:Hget; cbn.
  - rewrite get_del_eq. cbn.
    split; [by split; eauto|]. split; [by split|].
    split; [done|]. split; [|done].
    intros other Hne. by apply get_del_ne.
  - rewrite Hget. cbn.
    split; [split; [done | by intros [? ?]]|]. repeat split; done.
Qed.

(** ** The cursor *)

Section SliceFacts.
Context {A : Type}.
Implicit Types (l : list A).

Lemma from_nonneg (i : Z) l :
  (0 <= i)%Z -> PySlice.from i l = drop (Z.to_nat i) l.
Proof.
  intros Hi. unfold PySlice.from, PySlice.clip.
  destruct (i <? 0)%Z eqn:Hneg; [lia|].
  destruct (Nat.min_spec (Z.to_nat i) (length l)) as [[_ ->]|[Hle ->]];
    [done|].
  by rewrite !drop_ge by lia.
Qed.

Lemma upto_nonneg (j : Z) l :
  (0 <= j)%Z -> PySlice.upto j l = take (Z.to_nat j) l.
Proof.
  intros Hj. unfold PySlice.upto, PySlice.clip.
  destruct (j <? 0)%Z eqn:Hneg; [lia|].
  destruct (Nat.min_spec (Z.to_nat j) (length l)) as [[_ ->]|[Hle ->]];
    [done|].
  by rewrite !take_ge by lia.
Qed.

Lemma from_negative (i : Z) l :
  (i < 0)%Z -> PySlice.from i l = drop (length l - Z.to_nat (- i)) l.
Proof.
  intros Hi. unfold PySlice.from, PySlice.clip.
  destruct (i <? 0)%Z eqn:Hneg; [|lia]. f_equal. lia.
Qed.

Lemma upto_negative (j : Z) l :
  (j < 0)%Z -> PySlice.upto j l = take (length l - Z.to_nat (- j)) l.
Proof.
  intros Hj. unfold PySlice.upto, PySlice.clip.
  destruct (j <? 0)%Z eqn:Hneg; [|lia]. f_equal. lia.
Qed.
End SliceFacts.

Lemma page_slices (skip limit : Z) (docs : list document) :
  page skip limit docs = PySlice.upto limit (PySlice.from skip docs).
Proof. reflexivity. Qed.

(** X6. With a skip and a limit that are not negative, the cursor yields
    the documents after the first [skip], the first [limit] of them at
    most, in the order of the collection; so [limit] of them if that many
    are left, and all that are left otherwise. *)
Theorem cursor_window (skip limit : Z) (docs : list document) :
  (0 <= skip)%Z -> (0 <= limit)%Z ->
  page skip limit docs = take (Z.to_nat limit) (drop (Z.to_nat skip) docs) /\
  length (page skip limit docs)
    = Nat.min (Z.to_nat limit) (length docs - Z.to_nat skip).
Proof.
  intros Hs Hl. rewrite page_slices, from_nonneg, upto_nonneg by done.
  split; [done|]. by rewrite length_take, length_drop.
Qed.

Lemma cursor_window_witness :
  page 1 1 (PyDict.values (documents Example.two_heroes))
    = take (Z.to_nat 1)
        (drop (Z.to_nat 1) (PyDict.values (documents Example.two_heroes))) /\
  length (page 1 1 (PyDict.values (documents Example.two_heroes)))
    = Nat.min (Z.to_nat 1)
        (length (PyDict.values (documents Example.two_heroes)) - Z.to_nat 1).
Proof.
  apply (cursor_window 1 1 (PyDict.values (documents Example.two_heroes))); lia.
Defined.

(** X7. Pages follow one another: the page of [n] documents after [skip]
    and then the page of [m] documents after [skip + n] are together the
    page of [n + m] documents after [skip]. *)
Theorem cursor_pages_compose (skip n m : Z) (docs : list document) :
  (0 <= skip)%Z -> (0 <= n)%Z -> (0 <= m)%Z ->
  page skip n docs ++ page (skip + n) m docs = page skip (n + m) docs.
Proof.
  intros Hs Hn Hm.
  destruct (cursor_window skip n docs) as [-> _]; [lia..|].
  destruct (cursor_window (skip + n) m docs) as [-> _]; [lia..|].
  destruct (cursor_window skip (n + m) docs) as [-> _]; [lia..|].
  rewrite !Z2Nat.inj_add by lia. rewrite <- drop_drop.
  apply take_take_drop.
Qed.

Lemma cursor_pages_compose_witness :
  page 0 1 (PyDict.values (documents Example.two_heroes))
    ++ page (0 + 1) 1 (PyDict.values (documents Example.two_heroes))
  = page 0 (1 + 1) (PyDict.values (documents Example.two_heroes)).
Proof.
  apply (cursor_pages_compose 0 1 1
           (PyDict.values (documents Example.two_heroes))); lia.
Defined.

(** X8. Negative numbers count from the end, as Python slices do. A
    negative skip leaves the last [-skip] documents (all of them if there
    are fewer); a negative limit cuts the last [-limit] documents off what
    the skip left, instead of bounding how many are yielded. *)
Theorem cursor_negative (skip limit : Z) (docs : list document) :
  ((skip < 0)%Z ->
   PySlice.from skip docs = drop (length docs - Z.to_nat (- skip)) docs /\
   length (PySlice.from skip docs) = Nat.min (Z.to_nat (- skip)) (length docs)) /\
  ((limit < 0)%Z ->
   page skip limit docs
     = take (length (PySlice.from skip docs) - Z.to_nat (- limit))
         (PySlice.from skip docs) /\
   length (page skip limit docs)
     = (length (PySlice.from skip docs) - Z.to_nat (- limit))%nat).
Proof.
  split.
  - intros Hs. rewrite from_negative by done. split; [done|].
    rewrite length_drop. lia.
  - intros Hl. rewrite page_slices, upto_negative by done. split; [done|].
    rewrite length_take. lia.
Qed.

Lemma cursor_negative_witness :
  let docs := PyDict.values (documents Example.two_heroes) in
  (PySlice.from (-1) docs = drop (length docs - Z.to_nat (- -1)) docs /\
   length (PySlice.from (-1) docs) = Nat.min (Z.to_nat (- -1)) (length docs)) /\
  (page (-1) (-1) docs
     = take (length (PySlice.from (-1) docs) - Z.to_nat (- -1))
         (PySlice.from (-1) docs) /\
   length (page (-1) (-1) docs)
     = (length (PySlice.from (-1) docs) - Z.to_nat (- -1))%nat).
Proof.
  destruct (cursor_negative (-1) (-1)
              (PyDict.values (documents Example.two_heroes))) as [Hskip Hlimit].
  split; [apply Hskip | apply Hlimit]; lia.
Defined.

(** ** The routes and the store *)

Section RouteFacts.
Context `{Lax}.

Lemma append_heroes_pure (cursor : list document) (heroes : list Hero.t) st :
  append_heroes cursor heroes st =
  (match heroes_of cursor with
   | inl e => inl e
   | inr more => inr (heroes ++ more)
   end, st).
Proof.
  revert heroes. induction cursor as [|data cursor IH]; intros heroes.
  - cbn. by rewrite app_nil_r.
  - cbn [append_heroes heroes_of]. unfold bind. rewrite Hero_init_run.
    destruct (init_result data) as [e|hero]; [done|].
    rewrite IH. destruct (heroes_of cursor); [done|].
    by rewrite <- app_assoc.
Qed.

Lemma heroes_of_app (c1 c2 : list document) :
  heroes_of (c1 ++ c2) =
  match heroes_of c1 with
  | inl e => inl e
  | inr h1 =>
      match heroes_of c2 with
      | inl e => inl e
      | inr h2 => inr (h1 ++ h2)
      end
  end.
Proof.
  induction c1 as [|data c1 IH]; cbn.
  - by destruct (heroes_of c2).
  - destruct (init_result data) as [e|hero]; [done|]. rewrite IH.
    destruct (heroes_of c1); [done|]. by destruct (heroes_of c2).
Qed.

Lemma heroes_of_bad (cursor : list document) (data : document) :
  In data cursor -> (forall hero, Hero.validate data <> Valid hero) ->
  exists e, heroes_of cursor = inl e /\
            forall status detail, e <> HTTPException status detail.
Proof.
  intros Hin Hbad. induction cursor as [|data' cursor IH]; [done|].
  cbn. destruct (init_result data') as [e|hero] eqn:Hinit.
  - exists e. split; [done|]. unfold init_result in Hinit.
    destruct (Hero.validate data'); by simplify_eq.
  - destruct Hin as [->|Hin].
    + unfold init_result in Hinit.
      destruct (Hero.validate data) eqn:Hval; [|done..].
      by destruct (Hbad a).
    + destruct (IH Hin) as (e & -> & He). eauto.
Qed.

Lemma GET_heroes_run (skip limit : option string) (s l : Z) (st : store) :
  skip_param skip = Valid s -> limit_param limit = Valid l ->
  GET_heroes skip limit st =
  (match heroes_of (page s l (PyDict.values (documents st))) with
   | inr heroes => JSONResponse 200 (JArray (Hero.jsonable <$> heroes))
   | inl (HTTPException status detail) => detail_response status detail
   | inl _ => InternalServerError
   end, logged find_call st).
Proof.
  intros Hs Hl. unfold GET_heroes, with_param. rewrite Hs, Hl.
  unfold respond. rewrite read_heroes_run, append_heroes_pure.
  rewrite page_slices. cbn [documents logged].
  destruct (heroes_of _) as [[]|]; done.
Qed.

Lemma GET_heroes_documents (skip limit : option string) (st : store) :
  documents (snd (GET_heroes skip limit st)) = documents st.
Proof.
  unfold GET_heroes, with_param.
  destruct (skip_param skip) as [s| |]; [|done..].
  destruct (limit_param limit) as [l| |]; [|done..].
  unfold respond. rewrite read_heroes_run, append_heroes_pure.
  by destruct (heroes_of _) as [[]|].
Qed.

Lemma GET_hero_documents (hero_id : string) (st : store) :
  documents (snd (GET_hero hero_id st)) = documents st.
Proof.
  unfold GET_hero, respond. rewrite read_hero_run.
  destruct (ObjectId_of_str hero_id); [|done].
  by destruct (fetched _ _) as [[]|].
Qed.

Lemma get_In (k : ObjectId) (data : document)
    (d : PyDict.dict ObjectId document) :
  PyDict.get k d = Some data -> In (k, data) d.
Proof.
  induction d as [|[k' v'] d IH]; cbn; [done|].
  destruct (decide (k = k')) as [->|Hne]; [intros [= ->]; by left | auto].
Qed.

Lemma Forall_set {P : ObjectId * document -> Prop} k v
    (d : PyDict.dict ObjectId document) :
  P (k, v) -> Forall P d -> Forall P (PyDict.set k v d).
Proof.
  intros Hv. induction d as [|[k' v'] d IH]; cbn; intros Hd.
  - by constructor.
  - apply Forall_cons in Hd as [Hv' Hd].
    destruct (decide (k = k')); cbn; constructor; auto.
Qed.

Lemma Forall_del {P : ObjectId * document -> Prop} k
    (d : PyDict.dict ObjectId document) :
  Forall P d -> Forall P (PyDict.del k d).
Proof.
  induction d as [|[k' v'] d IH]; cbn; intros Hd; [done|].
  apply Forall_cons in Hd as [Hv' Hd].
  destruct (decide (k = k')); cbn; [|constructor]; auto.
Qed.

(** The dump of an update has field names for keys. *)
Lemma dump_dom (hero : HeroUpdate.t) :
  dom (HeroUpdate.model_dump_exclude_unset hero)
  ⊆ ({[ "name"; "age"; "secret_name" ]} : gset string).
Proof.
  intros k [v Hv]%elem_of_dom. rewrite dump_lookup in Hv.
  rewrite !elem_of_union, !elem_of_singleton.
  repeat case_decide; try done; tauto.
Qed.

Lemma union_twice (changes data : document) :
  changes ∪ (changes ∪ data) = changes ∪ data.
Proof.
  apply map_eq. intros k. rewrite !lookup_union.
  by destruct (changes !! k), (data !! k).
Qed.
End RouteFacts.

Section Invariant.
Context `{Lax}.

Lemma shaped_dumped (doc_id : ObjectId) (hero : Hero.t) :
  dom (<["_id" := VOid doc_id]> (Hero.model_dump_exclude_id hero)) = hero_keys.
Proof.
  unfold Hero.model_dump_exclude_id, hero_keys.
  rewrite !dom_insert_L, dom_empty_L. set_solver.
Qed.

Lemma consistent_POST doc_id body st :
  consistent (documents st) ->
  consistent (documents (snd (POST_heroes doc_id body st))).
Proof.
  intros (Hwf & Hkeyed & Hshaped). rewrite POST_heroes_run.
  destruct (Hero.validate body) as [hero| |]; [|done..].
  cbn. split; [by apply wf_set|]. split.
  - apply Forall_set; [|done]. cbn. by rewrite lookup_insert_eq.
  - apply Forall_values_set; [apply shaped_dumped | done].
Qed.

Lemma consistent_PATCH hero_id body st :
  consistent (documents st) ->
  consistent (documents (snd (PATCH_hero hero_id body st))).
Proof.
  intros (Hwf & Hkeyed & Hshaped).
  destruct (PATCH_hero_documents hero_id body st)
    as [-> | (object_id & hero & data & Hval & Hget & ->)]; [done|].
  assert (Hid : data !! "_id" = Some (VOid object_id)).
  { unfold keyed in Hkeyed. rewrite Forall_forall in Hkeyed.
    by apply (Hkeyed (object_id, data)), list_elem_of_In, get_In. }
  assert (Hdom : dom data = hero_keys).
  { unfold shaped in Hshaped. rewrite Forall_forall in Hshaped.
    apply Hshaped, list_elem_of_In. by eapply get_values. }
  split; [by apply wf_set|]. split.
  - apply Forall_set; [|done]. cbn. rewrite lookup_union_r; [done|].
    eapply dump_lookup_other; [done|].
    unfold HeroUpdate.fields. intros Hin%list_elem_of_In. cbn in Hin.
    intuition discriminate.
  - apply Forall_values_set; [|done].
    rewrite dom_union_L, Hdom. pose proof (dump_dom hero) as Hsub.
    apply set_eq. intros k. rewrite elem_of_union. split; [|tauto].
    intros [Hk%Hsub|Hk]; [|done]. revert Hk. unfold hero_keys.
    rewrite !elem_of_union, !elem_of_singleton. tauto.
Qed.

Lemma consistent_DELETE hero_id st :
  consistent (documents st) ->
  consistent (documents (snd (DELETE_hero hero_id st))).
Proof.
  intros (Hwf & Hkeyed & Hshaped).
  destruct (DELETE_hero_documents hero_id st) as [-> | [object_id ->]];
    [done|].
  split; [by apply wf_del|]. split; [by apply Forall_del|].
  by apply Forall_values_del.
Qed.

Lemma consistent_serve r st :
  consistent (documents st) -> consistent (documents (snd (serve r st))).
Proof.
  destruct r; cbn [serve].
  - apply consistent_POST.
  - by rewrite GET_heroes_documents.
  - by rewrite GET_hero_documents.
  - apply consistent_PATCH.
  - apply consistent_DELETE.
Qed.
End Invariant.

(** X9. Whatever requests the application has served, starting with an
    empty collection: no identifier has two documents, every document
    holds under [_id] the identifier it is stored under, and every
    document has the keys [_id], [name], [age] and [secret_name] and no
    other (a key that a request body has besides is never stored). *)
Theorem store_stays_consistent `{Lax} (rs : list request) :
  let d := documents (serve_all rs empty_store) in
  PyDict.wf d /\ keyed d /\ shaped d.
Proof.
  cbv zeta.
  assert (Hgen : forall st, consistent (documents st) ->
                            consistent (documents (serve_all rs st))).
  { induction rs as [|r rs IH]; intros st Hst; [done|].
    cbn [serve_all]. by apply IH, consistent_serve. }
  apply Hgen. cbn. repeat split; constructor.
Qed.

(** X10. Reading changes no document: after [GET /heroes/{id}] and after
    [GET /heroes/], whatever their parameters and their answer, the
    collection holds what it held. *)
Theorem reads_change_nothing `{Lax} (hero_id : string)
    (skip limit : option string) (st : store) :
  documents (snd (GET_hero hero_id st)) = documents st /\
  documents (snd (GET_heroes skip limit st)) = documents st.
Proof. split; [apply GET_hero_documents | apply GET_heroes_documents]. Qed.

(** X11. When every document holds its identifier under [_id],
    a [GET /heroes/{id}] that answers 200 answers with the identifier of
    the path, in the string form of the identifier type. *)
Theorem read_returns_the_identifier `{Lax} (hero_id : string)
    (object_id : ObjectId) (o : document) (st st1 : store) :
  keyed (documents st) ->
  ObjectId_of_str hero_id = Some object_id ->
  GET_hero hero_id st = (JSONResponse 200 (JObject o), st1) ->
  o !! "_id" = Some (VStr (ObjectId_str object_id)).
Proof.
  intros Hkeyed Hid. unfold GET_hero, respond.
  rewrite read_hero_run, Hid. unfold fetched, init_result.
  destruct (PyDict.get object_id (documents st)) as [data|] eqn:Hget;
    [|done].
  destruct (Hero.validate data) as [hero| |] eqn:Hval; [|done..].
  intros [= <- <-].
  unfold keyed in Hkeyed. rewrite Forall_forall in Hkeyed.
  pose proof (Hkeyed (object_id, data)
                (proj2 (list_elem_of_In _ _) (get_In _ _ _ Hget))) as Hdata.
  cbn in Hdata.
  apply Hero_validate_Valid in Hval as (Hi & _).
  unfold Schema.field in Hi. cbn in Hi. rewrite Hdata in Hi. cbn in Hi.
  injection Hi as Hi. unfold Hero.jsonable.
  by rewrite lookup_insert_eq, <- Hi.
Qed.

Lemma read_returns_the_identifier_witness :
  Hero.jsonable Example.deadpond_hero !! "_id"
  = Some (VStr (ObjectId_str Example.doc_id)).
Proof.
  apply (read_returns_the_identifier (H := Decimal.lax)
           "65F0C0FFEE0123456789ABCD" Example.doc_id
           (Hero.jsonable Example.deadpond_hero) Example.created
           (logged (find_one_call Example.doc_id) Example.created)).
  - repeat constructor.
  - reflexivity.
  - vm_compute. reflexivity.
Defined.

(** X12. [PATCH /heroes/{id}] a second time with the same identifier and
    body gives the answer of the first time and changes no document. *)
Theorem update_twice `{Lax} (hero_id : string) (body : document) (st : store) :
  let first := PATCH_hero hero_id body st in
  let second := PATCH_hero hero_id body (snd first) in
  fst second = fst first /\
  documents (snd second) = documents (snd first).
Proof.
  cbv zeta. unfold PATCH_hero, with_param.
  destruct (HeroUpdate.validate body) as [hero| |]; [|done..].
  unfold respond. rewrite !update_hero_run.
  destruct (ObjectId_of_str hero_id) as [object_id|]; [|done].
  cbn zeta. unfold fetched, not_found.
  destruct (1 <=? size (HeroUpdate.model_dump_exclude_unset hero))%nat.
  - destruct (PyDict.get object_id (documents st)) as [data|] eqn:Hget.
    + cbn [with_documents logged documents calls].
      rewrite get_set_eq.
      destruct (init_result _) as [[]|] eqn:Hinit;
        cbn [fst snd documents with_documents logged];
        rewrite !get_set_eq, union_twice, set_set, Hinit; done.
    + cbn [fst snd logged documents]. by rewrite Hget.
  - destruct (PyDict.get object_id (documents st)) as [data|] eqn:Hget.
    + destruct (init_result data) as [[]|] eqn:Hinit;
        cbn [fst snd documents logged]; rewrite Hget, Hinit; done.
    + cbn [fst snd documents logged]. by rewrite Hget.
Qed.

(** X13. After [DELETE /heroes/{id}] with a well-formed identifier,
    whatever it answered, the identifier names nothing: a second [DELETE]
    answers 404 and changes no document. *)
Theorem delete_twice `{Lax} (hero_id : string) (object_id : ObjectId)
    (st : store) :
  ObjectId_of_str hero_id = Some object_id ->
  let st1 := snd (DELETE_hero hero_id st) in
  PyDict.get object_id (documents st1) = None /\
  fst (DELETE_hero hero_id st1) = detail_response 404 "Hero not found" /\
  documents (snd (DELETE_hero hero_id st1)) = documents st1.
Proof.
  intros Hid. cbv zeta. unfold DELETE_hero, respond.
  rewrite !delete_hero_run, Hid. cbn zeta. unfold not_found.
  destruct (PyDict.get object_id (documents st)) as [data|] eqn:Hget;
    cbn [fst snd logged with_documents documents].
  - rewrite get_del_eq. done.
  - rewrite Hget. done.
Qed.

Lemma delete_twice_witness :
  let st1 := snd (DELETE_hero Example.hero_id Example.two_heroes) in
  PyDict.get Example.doc_id (documents st1) = None /\
  fst (DELETE_hero Example.hero_id st1) = detail_response 404 "Hero not found" /\
  documents (snd (DELETE_hero Example.hero_id st1)) = documents st1.
Proof.
  apply (delete_twice (H := Decimal.lax) Example.hero_id Example.doc_id
           Example.two_heroes).
  reflexivity.
Defined.

(** X14. A hero created under an identifier that is not in use shows at
    the end of the list: if [GET /heroes/] answered 200 with an array
    before (of fewer than 100 documents), it answers 200 with that array
    and then the created hero after. *)
Theorem create_then_list `{Lax} (doc_id : ObjectId) (body : document)
    (hero : Hero.t) (heroes : list document) (st : store) :
  Hero.validate body = Valid hero ->
  PyDict.get doc_id (documents st) = None ->
  (length (documents st) < 100)%nat ->
  fst (GET_heroes None None st) = JSONResponse 200 (JArray heroes) ->
  fst (GET_heroes None None (snd (POST_heroes doc_id body st)))
    = JSONResponse 200
        (JArray (heroes ++ [Hero.jsonable (Hero.with_id doc_id hero)])).
Proof.
  intros Hval Hfresh Hlen.
  rewrite !(GET_heroes_run None None 0 100) by done.
  rewrite POST_heroes_run, Hval. cbn [fst snd with_documents documents].
  assert (Hall : forall docs : list document,
            (length docs <= 100)%nat -> page 0 100 docs = docs).
  { intros docs Hdocs. destruct (cursor_window 0 100 docs) as [-> _]; [lia..|].
    rewrite drop_0. apply take_ge. lia. }
  rewrite set_fresh by done. unfold PyDict.values. rewrite map_app. cbn [map snd].
  rewrite !Hall by (rewrite ?length_app, !length_map; cbn; lia).
  rewrite heroes_of_app. cbn [heroes_of]. unfold init_result.
  rewrite Hero_validate_dumped.
  destruct (heroes_of (map snd (documents st))) as [[]|before]; try done.
  intros [= <-]. by rewrite fmap_app.
Qed.

Lemma create_then_list_witness :
  fst (GET_heroes (H := Decimal.lax) None None
         (snd (POST_heroes (H := Decimal.lax) Example.spider_id
                 Example.spider_boy Example.created)))
  = JSONResponse 200
      (JArray ([Hero.jsonable Example.deadpond_hero]
               ++ [Hero.jsonable
                     (Hero.with_id Example.spider_id
                        {| Hero.id := None; Hero.name := "Spider-Boy";
                           Hero.age := Some 25%Z;
                           Hero.secret_name := "Pedro Parqueador" |})])).
Proof.
  apply (create_then_list (H := Decimal.lax) Example.spider_id
           Example.spider_boy
           {| Hero.id := None; Hero.name := "Spider-Boy"; Hero.age := Some 25%Z;
              Hero.secret_name := "Pedro Parqueador" |}
           [Hero.jsonable Example.deadpond_hero] Example.created).
  - vm_compute. reflexivity.
  - vm_compute. reflexivity.
  - vm_compute. lia.
  - vm_compute. reflexivity.
Defined.

(** X15. What [GET /heroes/{id}] answers is decided by the identifier
    and the stored document: 400 exactly for a string the identifier type
    refuses, 404 exactly for an identifier that names nothing, 200
    exactly for one that names a document that is a hero, and 500 exactly
    for one that names a document that is no hero. *)
Theorem read_hero_status `{Lax} (hero_id : string) (st : store) :
  let status := status_code (fst (GET_hero hero_id st)) in
  (status = 400%Z <-> ObjectId_of_str hero_id = None) /\
  (status = 404%Z <->
   exists object_id,
     ObjectId_of_str hero_id = Some object_id /\
     PyDict.get object_id (documents st) = None) /\
  (status = 200%Z <->
   exists object_id data hero,
     ObjectId_of_str hero_id = Some object_id /\
     PyDict.get object_id (documents st) = Some data /\
     Hero.validate data = Valid hero) /\
  (status = 500%Z <->
   exists object_id data,
     ObjectId_of_str hero_id = Some object_id /\
     PyDict.get object_id (documents st) = Some data /\
     forall hero, Hero.validate data <> Valid hero).
Proof.
  cbv zeta. unfold GET_hero, respond. rewrite read_hero_run.
  unfold fetched, init_result, not_found, bad_id.
  destruct (ObjectId_of_str hero_id) as [object_id|] eqn:Hid; cbn;
    [destruct (PyDict.get object_id (documents st)) as [data|] eqn:Hget; cbn;
     [destruct (Hero.validate data) as [hero| |] eqn:Hval; cbn|]|];
    (split; [|split; [|split]]); split;
    try discriminate; try (intros _; eauto 10; fail);
    try (intros (? & ? & ? & ? & ? & ?); simplify_eq; fail);
    try (intros (? & ? & ? & ? & ?); simplify_eq; fail);
    try (intros (? & ? & ?); simplify_eq; fail).
  - intros (? & ? & ? & ? & Hbad). simplify_eq. by destruct (Hbad hero).
  - intros (? & ? & ? & ? & ? & ?). simplify_eq. congruence.
  - intros _. exists object_id, data. repeat split; congruence.
  - intros (? & ? & ? & ? & ? & ?). simplify_eq. congruence.
  - intros _. exists object_id, data. repeat split; congruence.
Qed.

(** X16. The JSON object a hero is sent as validates as that hero again,
    when the hero's identifier is absent or one the store generated:
    serializing with [str] and validating with [ObjectId] undo each
    other, and so do dumping and validating the other fields. *)
Theorem hero_json_round_trip `{Lax} (hero : Hero.t) :
  (forall oid, Hero.id hero = Some oid -> generated oid) ->
  Hero.validate (Hero.jsonable hero) = Valid hero.
Proof.
  intros Hgen. apply Hero_validate_Valid.
  unfold Hero.jsonable, Hero.model_dump_exclude_id, Schema.field.
  destruct hero as [i n a s]; cbn [Hero.id Hero.name Hero.age Hero.secret_name
                                    Schema.lookup_key] in *.
  repeat split; simplify_map_eq; try done.
  - destruct i as [oid|]; cbn; [|done].
    by rewrite ObjectId_of_str_str by auto.
  - by destruct a.
Qed.

Lemma hero_json_round_trip_witness :
  Hero.validate (H := Decimal.lax) (Hero.jsonable Example.deadpond_hero)
  = Valid Example.deadpond_hero.
Proof.
  apply (hero_json_round_trip (H := Decimal.lax) Example.deadpond_hero).
  intros oid [= <-]. reflexivity.
Defined.

(** X17. The changes an update passes to the collection have exactly
    those of the keys [name], [age] and [secret_name] that the request
    body has; a key of the body that is no field of [HeroUpdate], [_id]
    among them, is never in the changes. *)
Theorem changes_are_the_fields_given `{Lax} (body : document)
    (hero : HeroUpdate.t) :
  HeroUpdate.validate body = Valid hero ->
  dom (HeroUpdate.model_dump_exclude_unset hero)
  = dom body ∩ {[ "name"; "age"; "secret_name" ]}.
Proof.
  intros (_ & _ & _ & Hset)%HeroUpdate_validate_Valid.
  apply set_eq. intros k.
  rewrite elem_of_intersection, !elem_of_dom, dump_lookup.
  assert (Hfields : k ∈ HeroUpdate.fields <->
                    k ∈ ({[ "name"; "age"; "secret_name" ]} : gset string)).
  { unfold HeroUpdate.fields.
    rewrite !elem_of_cons, elem_of_nil, !elem_of_union, !elem_of_singleton.
    tauto. }
  rewrite <- Hfields. specialize (Hset k). unfold HeroUpdate.fields in *.
  rewrite !elem_of_cons, elem_of_nil in *.
  repeat case_decide; subst; split;
    try (intros [? ?]; done); try (intros [? ?]; tauto); try tauto;
    try (intros _; eauto).
Qed.

Lemma changes_are_the_fields_given_witness :
  dom (HeroUpdate.model_dump_exclude_unset
         {| HeroUpdate.name := None; HeroUpdate.age := Some 31%Z;
            HeroUpdate.secret_name := None;
            HeroUpdate.model_fields_set := {[ "age" ]} |})
  = dom (<["_id" := VStr Example.fake_id]> ({[ "age" := VInt 31 ]} : document))
      ∩ {[ "name"; "age"; "secret_name" ]}.
Proof.
  apply (changes_are_the_fields_given (H := Decimal.lax)
           (<["_id" := VStr Example.fake_id]> {[ "age" := VInt 31 ]})).
  vm_compute. reflexivity.
Defined.

(** X18. [PATCH /heroes/{id}] adds, removes and moves no document, and
    the documents of the identifiers other than the one of the path are
    what they were, whatever the body and the answer. *)
Theorem update_frame `{Lax} (hero_id : string) (body : document) (st : store) :
  let st1 := snd (PATCH_hero hero_id body st) in
  PyDict.keys (documents st1) = PyDict.keys (documents st) /\
  forall other, ObjectId_of_str hero_id <> Some other ->
    PyDict.get other (documents st1) = PyDict.get other (documents st).
Proof.
  cbv zeta. unfold PATCH_hero, with_param.
  destruct (HeroUpdate.validate body) as [hero| |]; [|done..].
  unfold respond. rewrite update_hero_run.
  destruct (ObjectId_of_str hero_id) as [object_id|]; [|done].
  cbn zeta. unfold fetched, not_found.
  destruct (1 <=? size (HeroUpdate.model_dump_exclude_unset hero))%nat.
  - destruct (PyDict.get object_id (documents st)) as [data|] eqn:Hget;
      [|done].
    cbn [with_documents logged documents calls]. rewrite get_set_eq.
    destruct (init_result _) as [[]|];
      cbn [fst snd documents with_documents logged];
      (split; [apply set_present; rewrite Hget; eauto|]);
      intros other Hne; apply get_set_ne; congruence.
  - destruct (PyDict.get object_id (documents st)) as [data|]; [|done].
    by destruct (init_result data) as [[]|].
Qed.

(** X19. One stored document that is no hero makes every list that
    reaches it fail: if the cursor of a [GET /heroes/] yields such a
    document, the answer is a server error (no part of the list is sent),
    and the collection holds what it held. *)
Theorem list_needs_every_document `{Lax} (skip limit : option string)
    (s l : Z) (data : document) (st : store) :
  skip_param skip = Valid s ->
  limit_param limit = Valid l ->
  In data (page s l (PyDict.values (documents st))) ->
  (forall hero, Hero.validate data <> Valid hero) ->
  GET_heroes skip limit st = (InternalServerError, logged find_call st).
Proof.
  intros Hs Hl Hin Hbad. rewrite (GET_heroes_run skip limit s l) by done.
  destruct (heroes_of_bad _ data Hin Hbad) as (e & -> & He).
  destruct e as [status detail| |]; [|done..].
  by destruct (He status detail).
Qed.

Lemma list_needs_every_document_witness :
  GET_heroes (H := Decimal.lax) None None Example.nameless
  = (InternalServerError, logged find_call Example.nameless).
Proof.
  apply (list_needs_every_document (H := Decimal.lax) None None 0 100
           (<["name" := VNone]>
              (<["_id" := VOid Example.doc_id]> Example.deadpond))
           Example.nameless).
  - reflexivity.
  - reflexivity.
  - vm_compute. left. reflexivity.
  - intros hero Hval. vm_compute in Hval. discriminate Hval.
Defined.

Section UpdateValidation.
Context `{Lax}.

Lemma update_hero_not_422 hero_id hero st :
  status_code (fst (respond (λ h, JObject (Hero.jsonable h))
                      (update_hero hero_id hero) st)) <> 422%Z.
Proof.
  unfold respond. rewrite update_hero_run.
  destruct (ObjectId_of_str hero_id) as [object_id|]; [|done].
  cbn zeta. unfold fetched, not_found, init_result.
  destruct (1 <=? size (HeroUpdate.model_dump_exclude_unset hero))%nat.
  - destruct (PyDict.get object_id (documents st)) as [data|]; [|done].
    cbn [with_documents logged documents calls]. rewrite get_set_eq.
    by destruct (Hero.validate _).
  - destruct (PyDict.get object_id (documents st)) as [data|]; [|done].
    by destruct (Hero.validate _).
Qed.
End UpdateValidation.

(** X20. The body of a [PATCH /heroes/{id}] is validated before the
    handler looks at the identifier: the answer is 422 exactly when the
    body is no [HeroUpdate], then the store is untouched, and this is so
    for a malformed identifier too. A [name] or [secret_name] that is
    neither a string nor null is such a body. *)
Theorem update_validates_first `{Lax} (hero_id : string) (body : document)
    (st : store) :
  (status_code (fst (PATCH_hero hero_id body st)) = 422%Z <->
   HeroUpdate.validate body = LineErrors) /\
  (HeroUpdate.validate body = LineErrors ->
   PATCH_hero hero_id body st = (UnprocessableEntity, st)) /\
  (forall f v,
     f = "name" \/ f = "secret_name" ->
     body !! f = Some v -> v <> VNone -> (forall s, v <> VStr s) ->
     HeroUpdate.validate body = LineErrors).
Proof.
  split; [|split].
  - unfold PATCH_hero, with_param.
    pose proof (HeroUpdate_validate_not_internal body) as Hint.
    destruct (HeroUpdate.validate body) as [hero| |] eqn:Hval; [|done..].
    split; [|done]. intros Hstatus. by apply update_hero_not_422 in Hstatus.
  - intros Hval. unfold PATCH_hero, with_param. by rewrite Hval.
  - intros f v Hf Hv Hnull Hstr.
    pose proof (HeroUpdate_validate_not_internal body) as Hint.
    destruct (HeroUpdate.validate body) as [hero| |] eqn:Hval; [|done..].
    apply HeroUpdate_validate_Valid in Hval as (Hn & _ & Hs & _).
    destruct Hf as [-> | ->].
    + rewrite (field_found _ _ _ _ _ Hv) in Hn.
      destruct v; try done. by destruct (Hstr s).
    + rewrite (field_found _ _ _ _ _ Hv) in Hs.
      destruct v; try done. by destruct (Hstr s).
Qed.
